(** * Knowledge-base upload widget: UploadService.ts and the UploadArea component

    A shallow embedding of
    [frontend/app/[locale]/setup/knowledgeBaseSetup/components/UploadService.ts]
    and of the [UploadArea] component that uses it, with the properties of the
    active-scope guard stated over the embedding.

    Strings are [String.string] (sequences of 8-bit code units, UTF-8 for the
    literals of the source).  [===] on strings is [String.eqb]. *)

From Stdlib Require Import String Ascii List Bool Arith Lia.
From stdpp Require Import base option list.
Import ListNotations.

Local Open Scope string_scope.
Local Open Scope list_scope.

(** ** A small model of the JavaScript runtime *)

Module Js.

(** A thrown [Error] object: [err.name] and [err.message].  A thrown [null]
    or [undefined], on which reading [.name] itself throws, is not a value of
    this type: what is said of a thrown value is said of thrown objects. *)
Record Error := mkError { err_name : string; err_message : string }.

(** [new Error(m)]: the [name] of a plain [Error] is ["Error"]. *)
Definition new_Error (m : string) : Error := mkError "Error" m.

(** The browser's [File]: only [name] and [type] are read by the code. *)
Record File := mkFile { name : string; type : string }.

(** The parsed body of a response, kept opaque. *)
Definition Json := string.

Inductive FormValue :=
| FileValue (f : File)
| TextValue (s : string).

(** [FormData]: the entries in the order of the [append] calls. *)
Definition FormData := list (string * FormValue).

(** What the modelled functions do to the outside world, in order. *)
Inductive Event :=
| MessageError (text : string)                 (* antd message.error *)
| ConsoleError (text : string)                 (* console.error *)
| Fetch (url : string) (body : FormData)       (* fetch(url, {method: 'POST', body}) *)
| NameCheck (knowledgeBaseName : string)       (* knowledgeBaseService.checkKnowledgeBaseNameExists *)
| UploadSuccess (result : Json) (f : File)     (* options.onSuccess(result, file) *)
| UploadError (e : Error)                      (* options.onError(e) *)
| InfoSuccess                                  (* fetchKnowledgeBaseInfo's onSuccess() *)
| InfoError (e : Error)                        (* fetchKnowledgeBaseInfo's onError(e) *)
| ParentOnUpload                               (* props.onUpload() *)
| ParentOnFileSelect (files : list File).      (* props.onFileSelect(files) *)

(** A statement either completes with a value or throws. *)
Inductive Res (A : Type) :=
| Ret (a : A)
| Throw (e : Error).
Arguments Ret {A} a.
Arguments Throw {A} e.

(** Code that is not part of the modelled file (a callback handed in by the
    caller, [fetch], a service): it may change the heap in any way and may
    throw.  An awaited call is of this kind too: whatever runs on the event
    loop while the caller is suspended is part of its heap change. *)
Definition Ext (H A : Type) := H -> Res A * H.

(** The modelled code: heap passing, exceptions, and the events emitted. *)
Definition M (H A : Type) := H -> Res A * H * list Event.

Section Monad.
Context {H : Type}.

Definition ret {A} (a : A) : M H A := fun h => (Ret a, h, []).

Definition throw {A} (e : Error) : M H A := fun h => (Throw e, h, []).

Definition bind {A B} (m : M H A) (k : A -> M H B) : M H B :=
  fun h =>
    match m h with
    | (Ret a, h1, t1) =>
        match k a h1 with
        | (r, h2, t2) => (r, h2, t1 ++ t2)
        end
    | (Throw e, h1, t1) => (Throw e, h1, t1)
    end.

(** [try { m } catch (err) { handler err }] *)
Definition try_catch {A} (m : M H A) (handler : Error -> M H A) : M H A :=
  fun h =>
    match m h with
    | (Ret a, h1, t1) => (Ret a, h1, t1)
    | (Throw e, h1, t1) =>
        match handler e h1 with
        | (r, h2, t2) => (r, h2, t1 ++ t2)
        end
    end.

(** Reading a mutable cell of the heap ([ref.current], [signal.aborted]). *)
Definition read {A} (cell : H -> A) : M H A := fun h => (Ret (cell h), h, []).

Definition modify (f : H -> H) : M H unit := fun h => (Ret tt, f h, []).

Definition emit (ev : Event) : M H unit := fun h => (Ret tt, h, [ev]).

(** Running external code without recording anything. *)
Definition lift {A} (f : Ext H A) : M H A :=
  fun h => match f h with (r, h1) => (r, h1, []) end.

(** Calling external code: the call is recorded, then the code runs. *)
Definition call {A} (ev : Event) (f : Ext H A) : M H A :=
  bind (emit ev) (fun _ => lift f).

(** Calling an [async] function without awaiting it: its body runs up to
    its first suspension point, a rejection stays in the dropped promise. *)
Definition floating {A} (m : M H A) : M H unit :=
  fun h => match m h with (_, h1, t1) => (Ret tt, h1, t1) end.

Definition message_error (text : string) : M H unit := emit (MessageError text).
Definition console_error (text : string) : M H unit := emit (ConsoleError text).

End Monad.

(** Projections of a finished run. *)
Definition result {H A} (r : Res A * H * list Event) : Res A := fst (fst r).
Definition heap {H A} (r : Res A * H * list Event) : H := snd (fst r).
Definition trace {H A} (r : Res A * H * list Event) : list Event := snd r.

(** [String.prototype.endsWith] *)
Definition endsWith (s suffix : string) : bool :=
  let n := String.length s in
  let m := String.length suffix in
  Nat.leb m n && String.eqb (substring (n - m) m s) suffix.

(** [String.prototype.toLowerCase] is a built-in whose table of case
    mappings belongs to the engine: the code that calls it takes it as a
    parameter.  On a string of ASCII code units it is the function below,
    which maps [A]..[Z] to [a]..[z]; the examples, all on ASCII names,
    instantiate the parameter with it. *)
Definition lower_ascii (c : ascii) : ascii :=
  let n := nat_of_ascii c in
  if Nat.leb 65 n && Nat.leb n 90 then ascii_of_nat (n + 32) else c.

Fixpoint toLowerCase_ascii (s : string) : string :=
  match s with
  | EmptyString => EmptyString
  | String c s' => String (lower_ascii c) (toLowerCase_ascii s')
  end.

(** [Array.prototype.includes] on an array of strings. *)
Definition includes (l : list string) (x : string) : bool :=
  existsb (String.eqb x) l.

End Js.

Import Js.

(** The statement sequencing of the source, in stdpp's monad notation:
    [x ← m; k] and [m;; k]. *)
#[global] Instance M_ret {H} : MRet (M H) := fun A => @ret H A.
#[global] Instance M_bind {H} : MBind (M H) := fun A B k m => @bind H A B m k.

(** ** UploadService.ts *)

Module UploadService.

Section Service.
(** The heap the service functions run against.  A mutable reference
    handed to a function ([React.MutableRefObject<string>], an
    [AbortController]) is the accessor of its cell in that heap. *)
Context {H : Type}.

(** [options] of the upload widget's [customRequest]. *)
Record RequestOptions := mkOptions {
  onSuccess : Json -> File -> Ext H unit;
  onError : Error -> Ext H unit;
  file : File
}.

(** What [fetch] resolves to: [response.ok] and [response.json()]. *)
Record Response := mkResponse {
  ok : bool;
  json : Ext H Json
}.

(** The global [fetch], called with [{method: 'POST', body}]. *)
Variable fetch : string -> FormData -> Ext H Response.

Definition customUploadRequest
    (options : RequestOptions)
    (effectiveUploadUrl : string)
    (isCreatingMode : bool)
    (newKnowledgeBaseName : string)
    (indexName : string)
    (currentKnowledgeBaseRef : H -> string) : M H unit :=
  let effectiveIndexName :=
    if isCreatingMode then newKnowledgeBaseName else indexName in
  current ← read currentKnowledgeBaseRef;
  if negb (effectiveIndexName =? current) && negb isCreatingMode then
    call (UploadError (new_Error "知识库已切换，请重新上传"))
         (onError options (new_Error "知识库已切换，请重新上传"));;
    message_error ("文件 " ++ name (file options) ++ " 上传失败：知识库已切换");;
    mret tt
  else
    let formData :=
      [("file", FileValue (file options));
       ("index_name", TextValue effectiveIndexName)] in
    try_catch
      (response ← call (Fetch effectiveUploadUrl formData)
                       (fetch effectiveUploadUrl formData);
       current ← read currentKnowledgeBaseRef;
       if negb (effectiveIndexName =? current) && negb isCreatingMode then
         call (UploadError (new_Error "知识库已切换，请重新上传"))
              (onError options (new_Error "知识库已切换，请重新上传"));;
         message_error ("文件 " ++ name (file options) ++ " 上传失败：知识库已切换");;
         mret tt
       else if ok response then
         result ← lift (json response);
         call (UploadSuccess result (file options))
              (onSuccess options result (file options))
       else
         call (UploadError (new_Error "上传失败"))
              (onError options (new_Error "上传失败"));;
         message_error ("文件 " ++ name (file options) ++ " 上传失败"))
      (fun err =>
         current ← read currentKnowledgeBaseRef;
         if (effectiveIndexName =? current) || isCreatingMode then
           call (UploadError (new_Error "上传失败"))
                (onError options (new_Error "上传失败"));;
           message_error ("文件 " ++ name (file options) ++ " 上传失败")
         else mret tt).

(** [knowledgeBaseService.checkKnowledgeBaseNameExists] *)
Variable nameExistsService : string -> Ext H bool.

Definition checkKnowledgeBaseNameExists (knowledgeBaseName : string) : M H bool :=
  try_catch
    (call (NameCheck knowledgeBaseName) (nameExistsService knowledgeBaseName))
    (fun error =>
       console_error "检查知识库名称失败:";;
       mret false).

Definition fetchKnowledgeBaseInfo
    (indexName : string)
    (abortController : H -> bool)
    (currentKnowledgeBaseRef : H -> string)
    (onSuccess : Ext H unit)
    (onError : Error -> Ext H unit) : M H unit :=
  try_catch
    (aborted ← read abortController;
     current ← read currentKnowledgeBaseRef;
     if negb aborted && (indexName =? current) then
       call InfoSuccess onSuccess
     else mret tt)
    (fun err =>
       current ← read currentKnowledgeBaseRef;
       if negb (err_name err =? "AbortError") && (indexName =? current) then
         console_error "获取知识库信息失败:";;
         message_error "获取知识库信息失败，请稍后重试";;
         call (InfoError err) (onError err)
       else mret tt).

(** The built-in [String.prototype.toLowerCase]. *)
Variable toLowerCase : string -> string.

Definition validTypes : list string :=
  ["application/pdf";
   "application/vnd.openxmlformats-officedocument.wordprocessingml.document";
   "application/vnd.openxmlformats-officedocument.presentationml.presentation";
   "application/vnd.openxmlformats-officedocument.spreadsheetml.sheet";
   "text/markdown";
   "text/plain";
   "text/csv";
   "application/csv"].

Definition validateFileType (file : File) : M H bool :=
  let isValidType := includes validTypes (type file) in
  let isValidType :=
    if negb isValidType then
      let name := toLowerCase (name file) in
      if endsWith name ".md" || endsWith name ".markdown" || endsWith name ".csv"
      then true
      else isValidType
    else isValidType in
  if negb isValidType then
    message_error "只支持 PDF、Word、PPT、Excel、MD、TXT、CSV 文件格式！";;
    mret false
  else mret true.

End Service.

Arguments RequestOptions : clear implicits.
Arguments Response : clear implicits.

End UploadService.

(** ** The UploadArea component *)

Module UploadArea.

(** antd's [UploadFileStatus]: ['error' | 'done' | 'uploading' | 'removed']. *)
Inductive UploadFileStatus := st_error | st_done | st_uploading | st_removed.

(** antd's [UploadFile]: the fields the component reads. *)
Record UploadFile := mkUploadFile {
  uid : string;
  status : option UploadFileStatus;
  originFileObj : option File
}.

(** [f.status === 'uploading'] *)
Definition is_uploading (f : UploadFile) : bool :=
  match status f with
  | Some st_uploading => true
  | _ => false
  end.

(** The props the modelled hooks depend on.  The parent's callbacks cannot
    reach the component's state or refs: a call is its outcome. *)
Record Props := mkProps {
  onFileSelect : list File -> Res unit;
  onUpload : option (Res unit);
  isCreatingMode : bool;
  indexName : string;
  newKnowledgeBaseName : string
}.

(** The [useState] cells, the [useRef] cells, and the [AbortController]
    objects allocated so far: a controller is its index in [controllers],
    the entry is its [signal.aborted]. *)
Record State := mkState {
  fileList : list UploadFile;
  nameExists : bool;
  isLoading : bool;
  isKnowledgeBaseReady : bool;
  currentKnowledgeBaseRef : string;
  pendingRequestRef : option nat;
  prevFileListRef : list UploadFile;
  controllers : list bool
}.

Definition setFileList (v : list UploadFile) (s : State) : State :=
  mkState v (nameExists s) (isLoading s) (isKnowledgeBaseReady s)
          (currentKnowledgeBaseRef s) (pendingRequestRef s) (prevFileListRef s)
          (controllers s).
Definition setNameExists (v : bool) (s : State) : State :=
  mkState (fileList s) v (isLoading s) (isKnowledgeBaseReady s)
          (currentKnowledgeBaseRef s) (pendingRequestRef s) (prevFileListRef s)
          (controllers s).
Definition setIsLoading (v : bool) (s : State) : State :=
  mkState (fileList s) (nameExists s) v (isKnowledgeBaseReady s)
          (currentKnowledgeBaseRef s) (pendingRequestRef s) (prevFileListRef s)
          (controllers s).
Definition setIsKnowledgeBaseReady (v : bool) (s : State) : State :=
  mkState (fileList s) (nameExists s) (isLoading s) v
          (currentKnowledgeBaseRef s) (pendingRequestRef s) (prevFileListRef s)
          (controllers s).
Definition set_currentKnowledgeBaseRef (v : string) (s : State) : State :=
  mkState (fileList s) (nameExists s) (isLoading s) (isKnowledgeBaseReady s)
          v (pendingRequestRef s) (prevFileListRef s) (controllers s).
Definition set_pendingRequestRef (v : option nat) (s : State) : State :=
  mkState (fileList s) (nameExists s) (isLoading s) (isKnowledgeBaseReady s)
          (currentKnowledgeBaseRef s) v (prevFileListRef s) (controllers s).
Definition set_prevFileListRef (v : list UploadFile) (s : State) : State :=
  mkState (fileList s) (nameExists s) (isLoading s) (isKnowledgeBaseReady s)
          (currentKnowledgeBaseRef s) (pendingRequestRef s) v (controllers s).
Definition set_controllers (v : list bool) (s : State) : State :=
  mkState (fileList s) (nameExists s) (isLoading s) (isKnowledgeBaseReady s)
          (currentKnowledgeBaseRef s) (pendingRequestRef s) (prevFileListRef s) v.

(** The state of a freshly mounted component, on a heap that already holds
    the controllers [cs]. *)
Definition initial (cs : list bool) : State :=
  mkState [] false false false "" None [] cs.

(** [new AbortController()] *)
Definition new_AbortController : M State nat :=
  cs ← read controllers;
  modify (set_controllers (cs ++ [false]));;
  mret (length cs).

(** [controller.abort()] *)
Definition abort (c : nat) : M State unit :=
  modify (fun s => set_controllers (<[c := true]> (controllers s)) s).

(** [controller.signal.aborted] *)
Definition signal_aborted (c : nat) (s : State) : bool :=
  match controllers s !! c with
  | Some b => b
  | None => false
  end.

Definition resetAllStates : M State unit :=
  modify (setFileList []);;
  modify (setNameExists false);;
  modify (setIsLoading true);;
  modify (setIsKnowledgeBaseReady false).

(** The cleanup function the scope effect returns. *)
Definition scopeEffectCleanup : M State unit :=
  pending ← read pendingRequestRef;
  match pending with
  | Some c => abort c;; modify (set_pendingRequestRef None)
  | None => mret tt
  end.

(** The effect on [[indexName, isCreatingMode, resetAllStates]].  The value
    says whether the run returned its cleanup function. *)
Definition scopeEffect (p : Props) : M State bool :=
  current ← read currentKnowledgeBaseRef;
  if indexName p =? current then mret false
  else
    pending ← read pendingRequestRef;
    match pending with
    | Some c => abort c;; modify (set_pendingRequestRef None)
    | None => mret tt
    end;;
    resetAllStates;;
    modify (set_currentKnowledgeBaseRef (indexName p));;
    if (indexName p =? "") || isCreatingMode p then
      modify (setIsKnowledgeBaseReady true);;
      modify (setIsLoading false);;
      mret false
    else
      abortController ← new_AbortController;
      modify (set_pendingRequestRef (Some abortController));;
      floating
        (UploadService.fetchKnowledgeBaseInfo
           (indexName p)
           (signal_aborted abortController)
           currentKnowledgeBaseRef
           (fun s => (Ret tt, setIsLoading false (setIsKnowledgeBaseReady true s)))
           (fun _ s => (Ret tt, setIsLoading false (setIsKnowledgeBaseReady false s))));;
      mret true.

(** The effect on [[fileList]]: [prevFileListRef.current = fileList]. *)
Definition prevFileListEffect : M State unit :=
  l ← read fileList;
  modify (set_prevFileListRef l).

(** [handleChange] as created by the render with props [p]. *)
Definition handleChange (p : Props) (newFileList : list UploadFile) : M State unit :=
  current ← read currentKnowledgeBaseRef;
  if isCreatingMode p || (indexName p =? current) then
    modify (setFileList newFileList);;
    prevFileList ← read prevFileListRef;
    let uploadWasInProgress := existsb is_uploading prevFileList in
    let uploadIsNowFinished :=
      Nat.ltb 0 (length newFileList) && negb (existsb is_uploading newFileList) in
    (if uploadWasInProgress && uploadIsNowFinished then
       match onUpload p with
       | Some cb => call ParentOnUpload (fun s => (cb, s))
       | None => mret tt
       end
     else mret tt);;
    let files := omap originFileObj newFileList in
    if Nat.ltb 0 (length files) then
      call (ParentOnFileSelect files) (fun s => (onFileSelect p files, s))
    else mret tt
  else mret tt.

(** *** The component over time

    A mounted component is its state together with what React keeps for
    the scope effect: the dependencies of its last run and whether that run
    returned a cleanup function. *)
Record Mounted := mkMounted {
  state : State;
  scopeDeps : option (string * bool);
  scopeCleanup : bool
}.

Definition mount (cs : list bool) : Mounted := mkMounted (initial cs) None false.

Definition same_deps (p : Props) (d : option (string * bool)) : bool :=
  match d with
  | Some (i, c) => (indexName p =? i) && Bool.eqb (isCreatingMode p) c
  | None => false
  end.

(** What happens to a mounted component. *)
Inductive Action :=
| Render (p : Props)                                  (* commit of a render with props p *)
| Change (p : Props) (newFileList : list UploadFile)  (* the widget calls a handleChange *)
| Unmount.                                            (* unmount, then a fresh mount *)

(** A commit runs the effects whose dependencies changed, the cleanup of
    the previous run first.  A thrown error leaves the state as it is at
    that point.  The effects run here are the file-list effect and the scope
    effect; the name-existence effect, which writes [nameExists] only and
    keeps its own [isActive] variables, is [NameCheck.nameCheckEffect] and
    is not part of a step. *)
Definition step (a : Action) (m : Mounted) : Mounted * list Event :=
  match a with
  | Render p =>
      let '(_, s0, t0) := prevFileListEffect (state m) in
      if same_deps p (scopeDeps m) then (mkMounted s0 (scopeDeps m) (scopeCleanup m), t0)
      else
        let '(_, s1, t1) :=
          (if scopeCleanup m then scopeEffectCleanup else mret tt) s0 in
        let '(r, s2, t2) := scopeEffect p s1 in
        let registered := match r with Ret b => b | Throw _ => false end in
        (mkMounted s2 (Some (indexName p, isCreatingMode p)) registered,
         t0 ++ t1 ++ t2)
  | Change p newFileList =>
      let '(_, s1, t1) := handleChange p newFileList (state m) in
      (mkMounted s1 (scopeDeps m) (scopeCleanup m), t1)
  | Unmount =>
      let '(_, s1, t1) :=
        (if scopeCleanup m then scopeEffectCleanup else mret tt) (state m) in
      (mount (controllers s1), t1)
  end.

Fixpoint run (actions : list Action) (m : Mounted) : Mounted * list Event :=
  match actions with
  | [] => (m, [])
  | a :: rest =>
      let '(m1, t1) := step a m in
      let '(m2, t2) := run rest m1 in
      (m2, t1 ++ t2)
  end.

(** The controllers whose signal is not aborted. *)
Definition live (s : State) : list bool :=
  filter (fun aborted => aborted = false) (controllers s).

End UploadArea.

Import UploadService UploadArea.

(** ** The upload widget's pre-flight hook *)

Module UploadWidget.

(** Modelled from the spec: the upload widget itself, which is library code
    outside the repository's sources.  The component hands it
    [beforeUpload: validateFileType] and [onChange: handleChange]; the spec
    (External interfaces, accepted file types) says of the gate that it is
    enforced before any network call and that a rejection prevents the file
    from entering the list.  So a selected file, for which the widget has
    made [entry], is announced to [onChange] at the end of the list only when
    [beforeUpload] answers [true]. *)
Definition selectFile (toLowerCase : string -> string)
    (p : Props) (file : File) (entry : UploadFile) : M State unit :=
  accepted ← validateFileType toLowerCase file;
  if (accepted : bool) then
    l ← read fileList;
    handleChange p (l ++ [entry])
  else mret tt.

End UploadWidget.

(** ** Vocabulary of the properties *)

Module Observe.

(** The two errors and the notices of [customUploadRequest]. *)
Definition scope_switched : Error := new_Error "知识库已切换，请重新上传".
Definition upload_failed : Error := new_Error "上传失败".
Definition notice_switched (f : File) : string :=
  "文件 " ++ name f ++ " 上传失败：知识库已切换".
Definition notice_failed (f : File) : string :=
  "文件 " ++ name f ++ " 上传失败".
Definition notice_unsupported : string :=
  "只支持 PDF、Word、PPT、Excel、MD、TXT、CSV 文件格式！".

(** The request body [customUploadRequest] builds. *)
Definition upload_body (f : File) (effectiveIndexName : string) : FormData :=
  [("file", FileValue f); ("index_name", TextValue effectiveIndexName)].

Definition is_UploadSuccess (ev : Event) : bool :=
  match ev with UploadSuccess _ _ => true | _ => false end.
Definition is_UploadError (ev : Event) : bool :=
  match ev with UploadError _ => true | _ => false end.
Definition is_MessageError (ev : Event) : bool :=
  match ev with MessageError _ => true | _ => false end.
Definition is_InfoSuccess (ev : Event) : bool :=
  match ev with InfoSuccess => true | _ => false end.
Definition is_InfoError (ev : Event) : bool :=
  match ev with InfoError _ => true | _ => false end.
Definition is_ParentOnUpload (ev : Event) : bool :=
  match ev with ParentOnUpload => true | _ => false end.
(** The events that are calls over the network. *)
Definition is_network (ev : Event) : bool :=
  match ev with Fetch _ _ | NameCheck _ => true | _ => false end.

(** How many events of a kind a trace holds. *)
Definition count (kind : Event -> bool) (t : list Event) : nat :=
  length (List.filter kind t).

(** Failing with the scope-switched error, off the success path. *)
Definition fails_scope_switched (t : list Event) : Prop :=
  In (UploadError scope_switched) t /\ count is_UploadSuccess t = 0.

(** The scope test of [customUploadRequest] at heap [h]: the target scope
    is the one the component holds, or creating-mode is on. *)
Definition scope_still_current {H : Type} (currentKnowledgeBaseRef : H -> string)
    (effectiveIndexName : string) (isCreatingMode : bool) (h : H) : bool :=
  (effectiveIndexName =? currentKnowledgeBaseRef h) || isCreatingMode.

(** The suffixes of the accepted kinds of file. *)
Definition accepted_suffixes : list string :=
  [".pdf"; ".docx"; ".pptx"; ".xlsx"; ".md"; ".markdown"; ".txt"; ".csv"].

(** An upload-completion transition of the file list. *)
Definition completes_upload (prev new : list UploadFile) : bool :=
  existsb is_uploading prev
  && (Nat.ltb 0 (length new) && negb (existsb is_uploading new)).

(** The controllers allocated so far are all aborted, except the one
    [pendingRequestRef] holds, which is the newest. *)
Definition pending_is_only_live (s : State) : Prop :=
  match pendingRequestRef s with
  | Some c => controllers s = replicate c true ++ [false]
  | None => controllers s = replicate (length (controllers s)) true
  end.

(** A mounted component: the invariant of its state, and a request is
    pending only while React holds the cleanup function of the effect run
    that started it. *)
Definition well_mounted (m : Mounted) : Prop :=
  pending_is_only_live (state m)
  /\ (scopeCleanup m = false -> pendingRequestRef (state m) = None).

End Observe.

(** ** Concrete callbacks, transports and props *)

Module Scenario.

(** A callback that returns normally and touches nothing. *)
Definition quiet {H A} (a : A) : Ext H A := fun h => (Ret a, h).

(** A callback that throws. *)
Definition failing {H A} (e : Error) : Ext H A := fun h => (Throw e, h).

(** The service functions on a heap that is the scope reference alone. *)
Definition current : string -> string := fun h => h.

Definition options (f : File) : RequestOptions string :=
  mkOptions (fun _ _ => quiet tt) (fun _ => quiet tt) f.

(** A transport that settles with [r] while the scope becomes [scope]. *)
Definition transport (r : Res (Response string)) (scope : string)
  : string -> FormData -> Ext string (Response string) :=
  fun _ _ _ => (r, scope).

Definition network_error : Error := mkError "TypeError" "Failed to fetch".

Definition report_pdf : File := mkFile "report.pdf" "".
Definition notes_md : File := mkFile "notes.md" "".
Definition data_csv : File := mkFile "data" "text/csv".
Definition photo_png : File := mkFile "photo.png" "image/png".

Definition props (creating : bool) (index : string) : Props :=
  mkProps (fun _ => Ret tt) (Some (Ret tt)) creating index "".

Definition entry (st : UploadFileStatus) : UploadFile :=
  mkUploadFile "rc-upload-1" (Some st) (Some report_pdf).

End Scenario.

Import Observe.

(** ** The name-existence effect of the component *)

Module NameCheck.

(** The component's cells together with the [isActive] variables of the runs
    of the name-existence effect: a run's variable is its index in [isActive]. *)
Record Hooks := mkHooks {
  area : State;
  isActive : list bool
}.

(** A [useState] setter of the component, on the larger heap. *)
Definition in_area (f : State -> State) (k : Hooks) : Hooks :=
  mkHooks (f (area k)) (isActive k).

(** [let isActive = true] *)
Definition new_isActive : M Hooks nat :=
  flags ← read isActive;
  modify (fun k => mkHooks (area k) (flags ++ [true]));;
  mret (length flags).

(** Reading [isActive] from the closure. *)
Definition read_isActive (cell : nat) (k : Hooks) : bool :=
  match isActive k !! cell with
  | Some b => b
  | None => false
  end.

(** The cleanup function of the effect: [isActive = false]. *)
Definition nameCheckCleanup (cell : nat) : M Hooks unit :=
  modify (fun k => mkHooks (area k) (<[cell := false]> (isActive k))).

(** [checkName], the async function of the effect. *)
Definition checkName (service : string -> Ext Hooks bool)
    (newKnowledgeBaseName : string) (cell : nat) : M Hooks unit :=
  try_catch
    (exists_ ← checkKnowledgeBaseNameExists service newKnowledgeBaseName;
     active ← read (read_isActive cell);
     if (active : bool) then modify (in_area (setNameExists exists_)) else mret tt)
    (fun error =>
       active ← read (read_isActive cell);
       if (active : bool) then console_error "检查知识库名称失败:" else mret tt).

(** The effect on [[isCreatingMode, newKnowledgeBaseName]].  The value is the
    [isActive] variable of the run when it returned its cleanup function. *)
Definition nameCheckEffect (service : string -> Ext Hooks bool) (p : Props)
  : M Hooks (option nat) :=
  if negb (isCreatingMode p) || (newKnowledgeBaseName p =? "") then
    modify (in_area (setNameExists false));;
    mret None
  else
    cell ← new_isActive;
    floating (checkName service (newKnowledgeBaseName p) cell);;
    mret (Some cell).

End NameCheck.

(** ** The tool-configuration modal (ToolConfigModal) *)

Module ToolConfigModal.

(** The value of a tool parameter ([value: any]); arrays and objects are kept
    opaque, the code never looks inside them. *)
Inductive Value :=
| VUndefined
| VNull
| VString (s : string)
| VNumber (n : Z)
| VBoolean (b : bool)
| VObject (repr : string).

Record ToolParam := mkParam {
  name : string;
  type : string;
  required : bool;
  value : Value;
  description : option string
}.

Record Tool := mkTool {
  id : string;
  tool_name : string;
  tool_description : string;
  source : string;
  initParams : list ToolParam
}.

(** [{...param, value: v}] and [{...tool, initParams: l}] *)
Definition with_value (v : Value) (param : ToolParam) : ToolParam :=
  mkParam (name param) (type param) (required param) v (description param).
Definition with_initParams (l : list ToolParam) (tool : Tool) : Tool :=
  mkTool (id tool) (tool_name tool) (tool_description tool) (source tool) l.

(** A plain object ([Record<string, any>]), as an object literal or a parsed
    response gives it: its own properties, and [Object.prototype] as its
    prototype. *)
Definition JsObject := list (string * Value).

(** The properties every plain object inherits from [Object.prototype]. *)
Definition object_prototype : list string :=
  ["constructor"; "hasOwnProperty"; "isPrototypeOf"; "propertyIsEnumerable";
   "toLocaleString"; "toString"; "valueOf"; "__proto__";
   "__defineGetter__"; "__defineSetter__"; "__lookupGetter__"; "__lookupSetter__"].

(** The value of an inherited property: a function of [Object.prototype], or
    the prototype itself for [__proto__]; an object, kept opaque. *)
Definition inherited (key : string) : Value :=
  VObject ("Object.prototype." ++ key).

Fixpoint own_get (o : JsObject) (key : string) : option Value :=
  match o with
  | [] => None
  | (k, v) :: rest => if k =? key then Some v else own_get rest key
  end.

(** [o[key]]: the own property if there is one, else the inherited one, else
    [undefined]. *)
Definition obj_get (o : JsObject) (key : string) : Value :=
  match own_get o key with
  | Some v => v
  | None => if includes object_prototype key then inherited key else VUndefined
  end.

Fixpoint own_set (key : string) (v : Value) (o : JsObject) : JsObject :=
  match o with
  | [] => [(key, v)]
  | (k, v') :: rest =>
      if k =? key then (k, v) :: rest else (k, v') :: own_set key v rest
  end.

(** [o[key] = v]: the own property is replaced or added.  Writing [__proto__]
    on an object that has no own property of that name goes to the setter it
    inherits and adds no own property; the setter may install another
    prototype when [v] is an object or [null], which this type does not
    record: what is said of inherited reads is said of objects on which no
    such write was made. *)
Definition obj_set (key : string) (v : Value) (o : JsObject) : JsObject :=
  match own_get o key with
  | None => if key =? "__proto__" then o else own_set key v o
  | Some _ => own_set key v o
  end.

(** [parseInt] gives a number or NaN. *)
Definition Num := option Z.

(** What [searchToolConfig] and [updateToolConfig] resolve to. *)
Record SearchResult := mkSearchResult {
  search_success : bool;
  search_message : option string;
  search_data : option (option JsObject)   (* data?.params, null or absent: None *)
}.

Record UpdateResult := mkUpdateResult {
  update_success : bool;
  update_message : option string
}.

(** [result.data?.params], when it is an object. *)
Definition data_params (result : SearchResult) : option JsObject :=
  match search_data result with
  | Some (Some params) => Some params
  | _ => None
  end.

(** [message || fallback]: an absent or empty message gives the fallback. *)
Definition or_default (message : option string) (fallback : string) : string :=
  match message with
  | Some m => if m =? "" then fallback else m
  | None => fallback
  end.

(** [value === undefined || value === '' || value === null] *)
Definition is_blank (v : Value) : bool :=
  match v with
  | VUndefined | VNull => true
  | VString s => s =? ""
  | _ => false
  end.

(** What the modal does to the outside world. *)
Inductive ModalEvent :=
| Message_error (text : string)
| Message_success (text : string)
| Console_error (text : string)
| SearchToolConfig (toolId : Num) (agentId : Z)
| UpdateToolConfig (toolId : Num) (agentId : Z) (params : JsObject) (isEnabled : bool)
| OnSave (tool : Tool).

(** The [useState] cells of the modal. *)
Record Modal := mkModal {
  currentParams : list ToolParam;
  isLoading : bool
}.

(** The modal's code: the state, exceptions and the events, as [Js.M] does
    for the upload widget. *)
Definition T (A : Type) := Modal -> Res A * Modal * list ModalEvent.

Definition t_ret {A} (a : A) : T A := fun h => (Ret a, h, []).

Definition t_bind {A B} (m : T A) (k : A -> T B) : T B :=
  fun h =>
    match m h with
    | (Ret a, h1, t1) =>
        match k a h1 with
        | (r, h2, t2) => (r, h2, t1 ++ t2)
        end
    | (Throw e, h1, t1) => (Throw e, h1, t1)
    end.

#[global] Instance T_ret : MRet T := fun A => @t_ret A.
#[global] Instance T_bind : MBind T := fun A B k m => @t_bind A B m k.

(** [try { m } catch (error) { handler error }] *)
Definition t_try_catch {A} (m : T A) (handler : Error -> T A) : T A :=
  fun h =>
    match m h with
    | (Ret a, h1, t1) => (Ret a, h1, t1)
    | (Throw e, h1, t1) =>
        match handler e h1 with
        | (r, h2, t2) => (r, h2, t1 ++ t2)
        end
    end.

(** [try { m } finally { cleanup }]: the cleanup runs either way, and the
    outcome of [m] stands unless the cleanup itself throws. *)
Definition t_finally {A} (m : T A) (cleanup : T unit) : T A :=
  fun h =>
    match m h with
    | (r, h1, t1) =>
        match cleanup h1 with
        | (Ret _, h2, t2) => (r, h2, t1 ++ t2)
        | (Throw e, h2, t2) => (Throw e, h2, t1 ++ t2)
        end
    end.

Definition t_emit (ev : ModalEvent) : T unit := fun h => (Ret tt, h, [ev]).

(** An awaited service call: recorded, then it settles; the state may have
    been set by other handlers meanwhile. *)
Definition t_call {A} (ev : ModalEvent) (f : Ext Modal A) : T A :=
  fun h => match f h with (r, h1) => (r, h1, [ev]) end.

(** A call of a callback of the parent, which cannot reach the state. *)
Definition t_callback (ev : ModalEvent) (outcome : Res unit) : T unit :=
  fun h => (outcome, h, [ev]).

(** Calling an [async] function without awaiting it. *)
Definition t_floating {A} (m : T A) : T unit :=
  fun h => match m h with (_, h1, t1) => (Ret tt, h1, t1) end.

Definition setCurrentParams (l : list ToolParam) : T unit :=
  fun h => (Ret tt, mkModal l (isLoading h), []).
Definition setIsLoading (b : bool) : T unit :=
  fun h => (Ret tt, mkModal (currentParams h) b, []).

Section Modal.
(** The global [parseInt] and the two services. *)
Variable parseInt : string -> Num.
Variable searchToolConfig : Num -> Z -> Ext Modal SearchResult.
Variable updateToolConfig : Num -> Z -> JsObject -> bool -> Ext Modal UpdateResult.

(** The default configuration: [tool.initParams.map(param => ({...param,
    value: param.value}))]. *)
Definition defaultParams (tool : Tool) : list ToolParam :=
  map (fun param => with_value (value param) param) (initParams tool).

(** The saved configuration laid over the defaults. *)
Definition savedParams (tool : Tool) (saved : JsObject) : list ToolParam :=
  map (fun param =>
         let savedValue := obj_get saved (name param) in
         with_value (match savedValue with
                     | VUndefined => value param
                     | _ => savedValue
                     end) param)
      (initParams tool).

Definition loadToolConfig (tool : option Tool) (mainAgentId : Z) : T unit :=
  match tool with
  | Some tool' =>
      if negb (Z.eqb mainAgentId 0) then
        setIsLoading true;;
        t_finally
          (t_try_catch
             (result ← t_call (SearchToolConfig (parseInt (id tool')) mainAgentId)
                              (searchToolConfig (parseInt (id tool')) mainAgentId);
              if search_success result then
                match data_params result with
                | Some saved => setCurrentParams (savedParams tool' saved)
                | None => setCurrentParams (defaultParams tool')
                end
              else
                t_emit (Message_error
                          (or_default (search_message result) "加载工具配置失败"));;
                setCurrentParams (defaultParams tool'))
             (fun error =>
                t_emit (Console_error "加载工具配置失败:");;
                t_emit (Message_error "加载工具配置失败，使用默认配置");;
                setCurrentParams (defaultParams tool')))
          (setIsLoading false)
      else setCurrentParams []
  | None => setCurrentParams []
  end.

(** The effect on [[isOpen, tool, mainAgentId]]. *)
Definition loadEffect (isOpen : bool) (tool : option Tool) (mainAgentId : Z) : T unit :=
  match tool with
  | Some _ =>
      if isOpen then t_floating (loadToolConfig tool mainAgentId)
      else setCurrentParams []
  | None => setCurrentParams []
  end.

(** The names of the required parameters that are left blank. *)
Definition missingRequiredFields (params : list ToolParam) : list string :=
  map name (List.filter (fun param => required param && is_blank (value param)) params).

Definition checkRequiredFields (tool : option Tool) : T bool :=
  match tool with
  | None => mret false
  | Some _ =>
      params ← (fun h => (Ret (currentParams h), h, []));
      if Nat.ltb 0 (length (missingRequiredFields params)) then
        t_emit (Message_error
                  ("以下必填字段未填写: "
                   ++ String.concat ", " (missingRequiredFields params)));;
        mret false
      else mret true
  end.

(** The object sent to the backend: [currentParams.reduce(...)]. *)
Definition paramsObject (params : list ToolParam) : JsObject :=
  fold_left (fun acc param => obj_set (name param) (value param) acc) params [].

Definition handleSave (tool : option Tool) (selectedTools : list Tool)
    (mainAgentId : Z) (onSave : Tool -> Res unit) : T unit :=
  match tool with
  | None => mret tt
  | Some tool' =>
      filled ← checkRequiredFields tool;
      if negb filled then mret tt
      else
        t_try_catch
          (current ← (fun h => (Ret (currentParams h), h, []));
           let params := paramsObject current in
           let isEnabled := existsb (fun t => id t =? id tool') selectedTools in
           result ← t_call (UpdateToolConfig (parseInt (id tool')) mainAgentId
                                             params isEnabled)
                           (updateToolConfig (parseInt (id tool')) mainAgentId
                                             params isEnabled);
           if update_success result then
             t_emit (Message_success "工具配置保存成功");;
             t_callback (OnSave (with_initParams current tool'))
                        (onSave (with_initParams current tool'))
           else
             t_emit (Message_error (or_default (update_message result) "保存失败")))
          (fun error =>
             t_emit (Console_error "保存工具配置失败:");;
             t_emit (Message_error "保存失败，请稍后重试"))
  end.

End Modal.

(** Projections of a finished run of the modal's code. *)
Definition t_result {A} (r : Res A * Modal * list ModalEvent) : Res A := fst (fst r).
Definition t_state {A} (r : Res A * Modal * list ModalEvent) : Modal := snd (fst r).
Definition t_events {A} (r : Res A * Modal * list ModalEvent) : list ModalEvent := snd r.

(** How many events of a kind a run produced. *)
Definition t_count (kind : ModalEvent -> bool) (t : list ModalEvent) : nat :=
  length (List.filter kind t).

(** The notifications among the events. *)
Definition is_notification (ev : ModalEvent) : bool :=
  match ev with Message_error _ | Message_success _ => true | _ => false end.
Definition is_update (ev : ModalEvent) : bool :=
  match ev with UpdateToolConfig _ _ _ _ => true | _ => false end.
Definition is_save (ev : ModalEvent) : bool :=
  match ev with OnSave _ => true | _ => false end.
Definition is_error_message (ev : ModalEvent) : bool :=
  match ev with Message_error _ => true | _ => false end.
Definition is_search (ev : ModalEvent) : bool :=
  match ev with SearchToolConfig _ _ => true | _ => false end.

(** The shape of a parameter: everything but its value. *)
Definition shape (param : ToolParam) : string * string * bool * option string :=
  (name param, type param, required param, description param).

(** A concrete tool for the examples. *)
Definition search_tool : Tool :=
  mkTool "7" "web_search" "Search the web" "local"
         [mkParam "api_key" "string" true (VString "") None;
          mkParam "top_k" "number" true (VNumber 0) (Some "How many results")].

End ToolConfigModal.

(** ** More vocabulary and scenarios *)

Module Observe2.

(** The events the hooks of the component can produce. *)
Definition component_event (ev : Event) : bool :=
  match ev with
  | InfoSuccess | ParentOnUpload | ParentOnFileSelect _ => true
  | _ => false
  end.

(** What [handleChange] tells the parent when it applies a change. *)
Definition change_events (p : Props) (prev new : list UploadFile) : list Event :=
  (if completes_upload prev new
   then match onUpload p with Some _ => [ParentOnUpload] | None => [] end
   else [])
  ++ (match omap originFileObj new with
      | [] => []
      | files => [ParentOnFileSelect files]
      end).

(** Lower-casing leaves a suffix in place, as the built-in does for a suffix
    of lower-case ASCII characters. *)
Definition keeps_suffix (toLowerCase : string -> string) (suffix : string) : Prop :=
  forall s, endsWith s suffix = true -> endsWith (toLowerCase s) suffix = true.

(** A mounted component at rest: not loading, ready once it holds a scope,
    and holding the scope of the last run of the scope effect. *)
Definition settled (m : Mounted) : Prop :=
  isLoading (state m) = false
  /\ (currentKnowledgeBaseRef (state m) <> "" -> isKnowledgeBaseReady (state m) = true)
  /\ (forall i c, scopeDeps m = Some (i, c) -> currentKnowledgeBaseRef (state m) = i).

End Observe2.

Module Scenario2.

(** Request options whose success callback throws. *)
Definition options_throwing (f : File) : RequestOptions string :=
  mkOptions (fun _ _ => Scenario.failing (new_Error "render failed"))
            (fun _ => Scenario.quiet tt) f.

Definition ok_response : Response string := mkResponse true (Scenario.quiet "{}").

(** A name service that answers [r] and lets the rest of the heap be. *)
Definition name_service (r : Res bool) : string -> Ext NameCheck.Hooks bool :=
  fun _ k => (r, k).

(** A name service during whose call the effect is cleaned up. *)
Definition name_service_superseded (r : Res bool) (cell : nat)
  : string -> Ext NameCheck.Hooks bool :=
  fun _ k => (r, Js.heap (NameCheck.nameCheckCleanup cell k)).

Definition creating (newName : string) : Props :=
  mkProps (fun _ => Ret tt) (Some (Ret tt)) true "" newName.

End Scenario2.

Import Observe2.

(** * Properties *)

(** Unfolding a run of modelled code down to the external calls it makes. *)
Ltac js_unfold :=
  cbv beta delta
    [customUploadRequest checkKnowledgeBaseNameExists fetchKnowledgeBaseInfo
     validateFileType call lift emit read modify floating throw
     message_error console_error try_catch mbind M_bind bind mret M_ret ret
     result heap trace] in *.

(** Case analysis on every external call left in the goal. *)
Ltac js_cases :=
  repeat match goal with
    | |- context [match ?f ?h with pair _ _ => _ end] =>
        let r := fresh "r" in
        let h' := fresh "h" in
        let E := fresh "E" in
        destruct (f h) as [r h'] eqn:E; try destruct r; simpl in *
    end.

(** Case analysis on the tests and external calls left in the goal, in the
    order the code reaches them. *)
Ltac js_step :=
  match goal with
  | |- context [if ?b then _ else _] => destruct b eqn:?; simpl in *
  | |- context [match ?f ?h with pair _ _ => _ end] =>
      let r := fresh "r" in
      let h' := fresh "h" in
      let E := fresh "E" in
      destruct (f h) as [r h'] eqn:E; try destruct r; simpl in *
  end.

Section ServiceFacts.
Context {H : Type}.

Lemma eqb_false_of_neq (a b : string) : a <> b -> (a =? b) = false.
Proof. intros Hne. apply String.eqb_neq. exact Hne. Qed.

Lemma eqb_true_of_eq (a b : string) : a = b -> (a =? b) = true.
Proof. intros ->. apply String.eqb_refl. Qed.

(** A stale call of [fetchKnowledgeBaseInfo] does not get past its test. *)
Lemma fetchKnowledgeBaseInfo_stale
      (indexName : string) (abortController : H -> bool)
      (currentKnowledgeBaseRef : H -> string)
      (onSuccess : Ext H unit) (onError : Error -> Ext H unit) (h : H) :
  negb (abortController h) && (indexName =? currentKnowledgeBaseRef h) = false ->
  fetchKnowledgeBaseInfo indexName abortController currentKnowledgeBaseRef
                         onSuccess onError h
  = (Ret tt, h, []).
Proof.
  intros Hstale. js_unfold. simpl. rewrite Hstale. reflexivity.
Qed.

(** A current call whose callback returns normally is one [onSuccess()]. *)
Lemma fetchKnowledgeBaseInfo_current
      (indexName : string) (abortController : H -> bool)
      (currentKnowledgeBaseRef : H -> string)
      (onSuccess : Ext H unit) (onError : Error -> Ext H unit) (h h1 : H) :
  negb (abortController h) && (indexName =? currentKnowledgeBaseRef h) = true ->
  onSuccess h = (Ret tt, h1) ->
  fetchKnowledgeBaseInfo indexName abortController currentKnowledgeBaseRef
                         onSuccess onError h
  = (Ret tt, h1, [InfoSuccess]).
Proof.
  intros Hcur Hcb. js_unfold. simpl. rewrite Hcur. simpl. rewrite Hcb. reflexivity.
Qed.

End ServiceFacts.

(** ** The name-existence check *)

(** C9. The name-existence check is fail-open: whenever the underlying service
    call throws, [checkKnowledgeBaseNameExists] logs the error to the console
    and returns [false] (the name is treated as not existing); the failure is
    not propagated. *)
Theorem checkKnowledgeBaseNameExists_fail_open
    {H : Type} (service : string -> Ext H bool)
    (knowledgeBaseName : string) (h h1 : H) (e : Error) :
  service knowledgeBaseName h = (Throw e, h1) ->
  checkKnowledgeBaseNameExists service knowledgeBaseName h
  = (Ret false, h1,
     [NameCheck knowledgeBaseName; ConsoleError "检查知识库名称失败:"]).
Proof.
  intros Hthrow. js_unfold. simpl. rewrite Hthrow. reflexivity.
Qed.

Lemma checkKnowledgeBaseNameExists_fail_open_witness :
  Scenario.failing (A := bool) Scenario.network_error "kb-a"
  = (Throw Scenario.network_error, "kb-a")
  /\ checkKnowledgeBaseNameExists
       (fun _ => Scenario.failing Scenario.network_error) "docs" "kb-a"
     = (Ret false, "kb-a", [NameCheck "docs"; ConsoleError "检查知识库名称失败:"]).
Proof.
  split; [reflexivity |].
  apply (checkKnowledgeBaseNameExists_fail_open
           (fun _ => Scenario.failing Scenario.network_error)
           "docs" "kb-a" "kb-a" Scenario.network_error).
  reflexivity.
Defined.

(** When the service answers, the answer is passed on. *)
Lemma checkKnowledgeBaseNameExists_answer
    {H : Type} (service : string -> Ext H bool)
    (knowledgeBaseName : string) (h h1 : H) (b : bool) :
  service knowledgeBaseName h = (Ret b, h1) ->
  checkKnowledgeBaseNameExists service knowledgeBaseName h
  = (Ret b, h1, [NameCheck knowledgeBaseName]).
Proof.
  intros Hret. js_unfold. simpl. rewrite Hret. reflexivity.
Qed.

(** ** Scope resolution: [fetchKnowledgeBaseInfo] *)

Section Resolution.
Context {H : Type}.
Variables (indexName : string) (abortController : H -> bool)
          (currentKnowledgeBaseRef : H -> string)
          (onSuccess : Ext H unit) (onError : Error -> Ext H unit).

Let resolve := fetchKnowledgeBaseInfo indexName abortController
                 currentKnowledgeBaseRef onSuccess onError.

(** The test at the head of the function, as a proposition. *)
Lemma current_test (h : H) :
  negb (abortController h) && (indexName =? currentKnowledgeBaseRef h) = true
  <-> abortController h = false /\ indexName = currentKnowledgeBaseRef h.
Proof.
  rewrite andb_true_iff, negb_true_iff, String.eqb_eq. reflexivity.
Qed.

Lemma stale_test (h : H) :
  abortController h = true \/ indexName <> currentKnowledgeBaseRef h ->
  negb (abortController h) && (indexName =? currentKnowledgeBaseRef h) = false.
Proof.
  intros [Ha | Hne].
  - rewrite Ha. reflexivity.
  - rewrite (eqb_false_of_neq _ _ Hne). apply andb_false_r.
Qed.

(** C2. A stale resolution completion is a silent no-op: when the completion
    arrives with the cancellation signal set, or for a scope other than the
    one the component currently holds, nothing is called, nothing is shown
    and the heap (so the readiness and loading flags) is left as it is; an
    outcome is applied only by a completion whose scope is the current one
    at arrival and whose signal is not set. *)
Theorem stale_resolution_is_noop (h : H) :
  (abortController h = true \/ indexName <> currentKnowledgeBaseRef h ->
   resolve h = (Ret tt, h, []))
  /\ (resolve h <> (Ret tt, h, []) ->
      abortController h = false /\ indexName = currentKnowledgeBaseRef h).
Proof.
  split.
  - intros Hstale. apply fetchKnowledgeBaseInfo_stale, stale_test, Hstale.
  - intros Hdiff. apply current_test.
    destruct (negb (abortController h) && (indexName =? currentKnowledgeBaseRef h))
      eqn:Htest; [reflexivity |].
    exfalso. apply Hdiff. apply fetchKnowledgeBaseInfo_stale, Htest.
Qed.

(** The trace of a resolution, case by case. *)
Lemma resolve_stale_trace (h : H) :
  negb (abortController h) && (indexName =? currentKnowledgeBaseRef h) = false ->
  trace (resolve h) = [].
Proof.
  intros Htest. unfold resolve.
  rewrite (fetchKnowledgeBaseInfo_stale _ _ _ _ _ _ Htest). reflexivity.
Qed.

Lemma resolve_thrown_trace (h h1 : H) (e : Error) :
  negb (abortController h) && (indexName =? currentKnowledgeBaseRef h) = true ->
  onSuccess h = (Throw e, h1) ->
  trace (resolve h)
  = InfoSuccess ::
      (if negb (err_name e =? "AbortError") && (indexName =? currentKnowledgeBaseRef h1)
       then [ConsoleError "获取知识库信息失败:";
             MessageError "获取知识库信息失败，请稍后重试";
             InfoError e]
       else []).
Proof.
  intros Htest Hcb. unfold resolve. js_unfold. simpl. rewrite Htest. simpl.
  rewrite Hcb. simpl.
  destruct (negb (err_name e =? "AbortError")
            && (indexName =? currentKnowledgeBaseRef h1)); simpl.
  - destruct (onError e h1) as [r h2]. reflexivity.
  - reflexivity.
Qed.

(** C10, amended. [fetchKnowledgeBaseInfo] performs no network call.  It
    invokes [onSuccess] exactly once when the abort signal is not set and
    the requested [indexName] equals the current scope at call time, and
    otherwise does nothing at all.  Its failure branch is reached only when
    [onSuccess] itself throws: with a callback that returns normally
    [onError] is never invoked and nothing is shown; with one that throws,
    the error is logged, shown and passed to [onError] if its name is not
    AbortError and the scope is still the requested one. *)
Theorem fetchKnowledgeBaseInfo_outcomes (h : H) :
  let live_call :=
    negb (abortController h) && (indexName =? currentKnowledgeBaseRef h) in
  count is_network (trace (resolve h)) = 0
  /\ count is_InfoSuccess (trace (resolve h)) = (if live_call then 1 else 0)
  /\ (live_call = false -> resolve h = (Ret tt, h, []))
  /\ (forall h1, live_call = true -> onSuccess h = (Ret tt, h1) ->
        resolve h = (Ret tt, h1, [InfoSuccess]))
  /\ (forall e h1, live_call = true -> onSuccess h = (Throw e, h1) ->
        trace (resolve h)
        = InfoSuccess ::
            (if negb (err_name e =? "AbortError")
                && (indexName =? currentKnowledgeBaseRef h1)
             then [ConsoleError "获取知识库信息失败:";
                   MessageError "获取知识库信息失败，请稍后重试";
                   InfoError e]
             else [])).
Proof.
  intros live_call. subst live_call.
  destruct (negb (abortController h) && (indexName =? currentKnowledgeBaseRef h))
    eqn:Htest.
  - destruct (onSuccess h) as [[[] | e] h1] eqn:Hcb.
    + unfold resolve.
      rewrite (fetchKnowledgeBaseInfo_current _ _ _ _ _ _ _ Htest Hcb).
      repeat split; try reflexivity; try discriminate.
      * intros h2 _ Heq. injection Heq as <-. reflexivity.
    + pose proof (resolve_thrown_trace h h1 e Htest Hcb) as Ht.
      repeat split; try discriminate.
      * rewrite Ht.
        destruct (negb (err_name e =? "AbortError")
                  && (indexName =? currentKnowledgeBaseRef h1)); reflexivity.
      * rewrite Ht.
        destruct (negb (err_name e =? "AbortError")
                  && (indexName =? currentKnowledgeBaseRef h1)); reflexivity.
      * intros e' h2 _ Heq. injection Heq as <- <-. exact Ht.
  - pose proof (fetchKnowledgeBaseInfo_stale _ _ _ onSuccess onError _ Htest) as Hr.
    fold resolve in Hr.
    repeat split; try discriminate; try (rewrite Hr; reflexivity).
Qed.

End Resolution.

Lemma stale_resolution_is_noop_witness :
  let s := set_currentKnowledgeBaseRef "kb-b" (initial [true]) in
  let ready := fun s => (Ret tt, setIsLoading false (setIsKnowledgeBaseReady true s)) in
  let not_ready :=
    fun (_ : Error) s => (Ret tt, setIsLoading false (setIsKnowledgeBaseReady false s)) in
  (signal_aborted 0 s = true \/ "kb-a" <> currentKnowledgeBaseRef s)
  /\ fetchKnowledgeBaseInfo "kb-a" (signal_aborted 0) currentKnowledgeBaseRef
       ready not_ready s
     = (Ret tt, s, []).
Proof.
  intros s ready not_ready.
  split; [left; reflexivity |].
  apply (proj1 (stale_resolution_is_noop "kb-a" (signal_aborted 0)
                  currentKnowledgeBaseRef ready not_ready s)).
  left. reflexivity.
Defined.

(** C10, as stated, fails: an [onSuccess] that throws takes the call into the
    failure branch, where [onError] is invoked. *)
Lemma fetchKnowledgeBaseInfo_failure_branch_reached :
  count is_InfoError
    (trace (fetchKnowledgeBaseInfo "kb-a" (fun _ => false) Scenario.current
              (Scenario.failing (new_Error "boom"))
              (fun _ => Scenario.quiet tt) "kb-a"))
  <> 0.
Proof. vm_compute. discriminate. Qed.

Lemma fetchKnowledgeBaseInfo_outcomes_witness :
  let ready := fun s => (Ret tt, setIsLoading false (setIsKnowledgeBaseReady true s)) in
  let not_ready :=
    fun (_ : Error) s => (Ret tt, setIsLoading false (setIsKnowledgeBaseReady false s)) in
  let s := set_currentKnowledgeBaseRef "kb-a" (initial [false]) in
  fetchKnowledgeBaseInfo "kb-a" (signal_aborted 0) currentKnowledgeBaseRef
    ready not_ready s
  = (Ret tt, setIsLoading false (setIsKnowledgeBaseReady true s), [InfoSuccess]).
Proof.
  intros ready not_ready s.
  apply (fetchKnowledgeBaseInfo_outcomes "kb-a" (signal_aborted 0)
           currentKnowledgeBaseRef ready not_ready s); reflexivity.
Defined.

(** ** The scope-change effect of the component *)

Ltac component_unfold :=
  cbv beta delta
    [scopeEffect scopeEffectCleanup resetAllStates new_AbortController abort
     prevFileListEffect handleChange] in *;
  js_unfold.

(** C5. When the supplied scope identifier changes to the empty value, or
    changes while creating-mode is on, the scope-change handling itself leaves
    the readiness flag true and the loading flag false, and makes no call at
    all: the trace is empty, no controller is allocated and no request is left
    pending. *)
Theorem scope_change_to_empty_or_creating (p : Props) (s : State) :
  indexName p <> currentKnowledgeBaseRef s ->
  indexName p = "" \/ isCreatingMode p = true ->
  let r := scopeEffect p s in
  isKnowledgeBaseReady (Js.heap r) = true
  /\ isLoading (Js.heap r) = false
  /\ Js.trace r = []
  /\ count is_network (Js.trace r) = 0
  /\ length (controllers (Js.heap r)) = length (controllers s)
  /\ pendingRequestRef (Js.heap r) = None
  /\ currentKnowledgeBaseRef (Js.heap r) = indexName p.
Proof.
  intros Hchange Hquiet r. subst r.
  assert (Htest : (indexName p =? "") || isCreatingMode p = true).
  { destruct Hquiet as [-> | ->]; [reflexivity | apply orb_true_r]. }
  component_unfold. simpl.
  rewrite (eqb_false_of_neq _ _ Hchange).
  destruct (pendingRequestRef s) as [c |] eqn:Hpending; simpl; rewrite Htest; simpl;
    repeat split; try reflexivity.
  - apply length_insert.
  - exact Hpending.
Qed.

Lemma scope_change_to_empty_or_creating_witness :
  let s := Js.heap (scopeEffect (Scenario.props false "kb-a") (initial [])) in
  let r := scopeEffect (Scenario.props true "kb-new") s in
  indexName (Scenario.props true "kb-new") <> currentKnowledgeBaseRef s
  /\ isKnowledgeBaseReady (Js.heap r) = true
  /\ isLoading (Js.heap r) = false
  /\ Js.trace r = [].
Proof.
  intros s r.
  split; [vm_compute; discriminate |].
  pose proof (scope_change_to_empty_or_creating (Scenario.props true "kb-new") s)
    as Hthm.
  destruct Hthm as (Hready & Hloading & Htrace & _).
  - vm_compute. discriminate.
  - right. reflexivity.
  - repeat split; assumption.
Defined.

(** *** What the hooks do to the controllers *)

(** The controllers once the pending one, if any, is aborted. *)
Lemma aborted_pending (s : State) :
  pending_is_only_live s ->
  match pendingRequestRef s with
  | Some c => <[c := true]> (controllers s)
  | None => controllers s
  end = replicate (length (controllers s)) true.
Proof.
  unfold pending_is_only_live. destruct (pendingRequestRef s) as [c |]; intros Hinv.
  - rewrite Hinv at 1.
    rewrite insert_app_r_alt by (rewrite length_replicate; lia).
    rewrite length_replicate, Nat.sub_diag. simpl.
    rewrite Hinv, length_app, length_replicate. simpl.
    replace (c + 1) with (S c) by lia.
    rewrite replicate_S_end. reflexivity.
  - exact Hinv.
Qed.

Lemma pending_is_only_live_ext (s s' : State) :
  pendingRequestRef s' = pendingRequestRef s ->
  controllers s' = controllers s ->
  pending_is_only_live s -> pending_is_only_live s'.
Proof.
  unfold pending_is_only_live. intros -> ->. trivial.
Qed.

Lemma scopeEffect_same_scope (p : Props) (s : State) :
  indexName p = currentKnowledgeBaseRef s ->
  scopeEffect p s = (Ret false, s, []).
Proof.
  intros Hsame. component_unfold. simpl.
  rewrite (eqb_true_of_eq _ _ Hsame). reflexivity.
Qed.

(** A scope change aborts the pending controller and drops it; a resolvable
    scope then gets one new controller, which becomes the pending one. *)
Lemma scopeEffect_requests (p : Props) (s : State) :
  indexName p <> currentKnowledgeBaseRef s ->
  let cs := match pendingRequestRef s with
            | Some c => <[c := true]> (controllers s)
            | None => controllers s
            end in
  let s' := Js.heap (scopeEffect p s) in
  if (indexName p =? "") || isCreatingMode p
  then Js.result (scopeEffect p s) = Ret false
       /\ pendingRequestRef s' = None /\ controllers s' = cs
  else Js.result (scopeEffect p s) = Ret true
       /\ pendingRequestRef s' = Some (length cs) /\ controllers s' = cs ++ [false].
Proof.
  intros Hchange cs s'. subst cs s'.
  component_unfold. simpl.
  rewrite (eqb_false_of_neq _ _ Hchange).
  destruct (pendingRequestRef s) as [c |] eqn:Hpending; simpl;
    destruct ((indexName p =? "") || isCreatingMode p); simpl;
    repeat match goal with
      | |- context [if ?b then _ else _] => destruct b; simpl
      end;
    auto.
Qed.

Lemma scopeEffectCleanup_requests (s : State) :
  let s' := Js.heap (scopeEffectCleanup s) in
  pendingRequestRef s' = None
  /\ controllers s' = match pendingRequestRef s with
                      | Some c => <[c := true]> (controllers s)
                      | None => controllers s
                      end.
Proof.
  component_unfold. simpl.
  destruct (pendingRequestRef s) as [c |] eqn:Hpending; simpl; auto.
Qed.

Lemma handleChange_requests (p : Props) (l : list UploadFile) (s : State) :
  let s' := Js.heap (handleChange p l s) in
  pendingRequestRef s' = pendingRequestRef s /\ controllers s' = controllers s.
Proof.
  component_unfold. simpl.
  destruct (isCreatingMode p || (indexName p =? currentKnowledgeBaseRef s)); simpl;
    [| auto].
  destruct (existsb is_uploading (prevFileListRef s)
            && (Nat.ltb 0 (length l) && negb (existsb is_uploading l))); simpl.
  - destruct (onUpload p) as [[[] | e] |]; simpl; auto;
      destruct (Nat.ltb 0 (length (omap originFileObj l))); simpl; auto;
      destruct (onFileSelect p (omap originFileObj l)); simpl; auto.
  - destruct (Nat.ltb 0 (length (omap originFileObj l))); simpl; auto;
      destruct (onFileSelect p (omap originFileObj l)); simpl; auto.
Qed.

(** *** The invariant along a run *)

Lemma scopeEffectCleanup_invariant (s : State) :
  pending_is_only_live s ->
  pending_is_only_live (Js.heap (scopeEffectCleanup s)).
Proof.
  intros Hinv.
  destruct (scopeEffectCleanup_requests s) as [Hp Hc].
  unfold pending_is_only_live. rewrite Hp, Hc.
  rewrite (aborted_pending s Hinv), length_replicate. reflexivity.
Qed.

Lemma scopeEffect_invariant (p : Props) (s : State) :
  pending_is_only_live s ->
  pending_is_only_live (Js.heap (scopeEffect p s)).
Proof.
  intros Hinv.
  destruct (String.eqb_spec (indexName p) (currentKnowledgeBaseRef s)) as [Hsame | Hchange].
  - rewrite (scopeEffect_same_scope p s Hsame). exact Hinv.
  - pose proof (scopeEffect_requests p s Hchange) as Hreq. simpl in Hreq.
    rewrite (aborted_pending s Hinv) in Hreq.
    unfold pending_is_only_live.
    destruct ((indexName p =? "") || isCreatingMode p);
      destruct Hreq as (_ & Hp & Hc); rewrite Hp, Hc.
    + rewrite length_replicate. reflexivity.
    + rewrite length_replicate. reflexivity.
Qed.

(** The effect hands React its cleanup function exactly when it leaves a
    request pending. *)
Lemma scopeEffect_registers (p : Props) (s : State) :
  pendingRequestRef s = None ->
  match Js.result (scopeEffect p s) with
  | Ret true => True
  | _ => pendingRequestRef (Js.heap (scopeEffect p s)) = None
  end.
Proof.
  intros Hnone.
  destruct (String.eqb_spec (indexName p) (currentKnowledgeBaseRef s)) as [Hsame | Hchange].
  - rewrite (scopeEffect_same_scope p s Hsame). exact Hnone.
  - pose proof (scopeEffect_requests p s Hchange) as Hreq. simpl in Hreq.
    destruct ((indexName p =? "") || isCreatingMode p);
      destruct Hreq as (Hr & Hp & _); rewrite Hr; [exact Hp | exact I].
Qed.

Lemma step_invariant (a : Action) (m : Mounted) :
  well_mounted m -> well_mounted (fst (step a m)).
Proof.
  intros [Hinv Hreg]. destruct a as [p | p l |]; simpl.
  - destruct (same_deps p (scopeDeps m)); simpl; [split; assumption |].
    set (s0 := set_prevFileListRef (fileList (state m)) (state m)).
    assert (Hinv0 : pending_is_only_live s0) by exact Hinv.
    assert (H1 : exists r1 s1 t1,
               (if scopeCleanup m then scopeEffectCleanup else mret tt) s0 = (r1, s1, t1)
               /\ pending_is_only_live s1 /\ pendingRequestRef s1 = None).
    { destruct (scopeCleanup m).
      - pose proof (scopeEffectCleanup_invariant s0 Hinv0) as Hc.
        destruct (scopeEffectCleanup_requests s0) as [Hp _].
        unfold Js.heap in *.
        destruct (scopeEffectCleanup s0) as [[r1 s1] t1].
        exists r1, s1, t1. auto.
      - exists (Ret tt), s0, []. repeat split; auto. }
    destruct H1 as (r1 & s1 & t1 & -> & Hinv1 & Hnone1).
    pose proof (scopeEffect_invariant p s1 Hinv1) as Hinv2.
    pose proof (scopeEffect_registers p s1 Hnone1) as Hreg2.
    unfold Js.heap, Js.result in *.
    destruct (scopeEffect p s1) as [[r2 s2] t2]. simpl in *.
    split; [exact Hinv2 |]. simpl.
    destruct r2 as [[|] | e]; auto; discriminate.
  - destruct (handleChange_requests p l (state m)) as [Hp Hc]. unfold Js.heap in *.
    destruct (handleChange p l (state m)) as [[r1 s1] t1]. simpl in *.
    split.
    + exact (pending_is_only_live_ext _ _ Hp Hc Hinv).
    + simpl. intros Hfalse. rewrite Hp. auto.
  - assert (H1 : exists r1 s1 t1,
               (if scopeCleanup m then scopeEffectCleanup else mret tt) (state m)
               = (r1, s1, t1)
               /\ pending_is_only_live s1 /\ pendingRequestRef s1 = None).
    { destruct (scopeCleanup m).
      - pose proof (scopeEffectCleanup_invariant (state m) Hinv) as Hc.
        destruct (scopeEffectCleanup_requests (state m)) as [Hp _].
        unfold Js.heap in *.
        destruct (scopeEffectCleanup (state m)) as [[r1 s1] t1].
        exists r1, s1, t1. auto.
      - exists (Ret tt), (state m), []. repeat split; auto. }
    destruct H1 as (r1 & s1 & t1 & -> & Hinv1 & Hnone1).
    split; simpl; [| reflexivity].
    unfold pending_is_only_live in *. simpl. rewrite Hnone1 in Hinv1. exact Hinv1.
Qed.

Lemma run_invariant (actions : list Action) (m : Mounted) :
  well_mounted m -> well_mounted (fst (run actions m)).
Proof.
  revert m. induction actions as [| a rest IH]; intros m Hm; simpl; [exact Hm |].
  pose proof (step_invariant a m Hm) as H1.
  destruct (step a m) as [m1 t1]. simpl in H1.
  specialize (IH m1 H1).
  destruct (run rest m1) as [m2 t2]. exact IH.
Qed.

Lemma mount_invariant : well_mounted (mount []).
Proof. split; reflexivity. Qed.

Lemma filter_live_replicate (n : nat) :
  filter (fun aborted : bool => aborted = false) (replicate n true) = [].
Proof.
  induction n as [| n IH]; simpl; [reflexivity |].
  rewrite filter_cons_False by discriminate. exact IH.
Qed.

Lemma pending_is_only_live_count (s : State) :
  pending_is_only_live s -> length (live s) <= 1.
Proof.
  unfold pending_is_only_live, live.
  destruct (pendingRequestRef s) as [c |]; intros ->.
  - rewrite filter_app, filter_live_replicate. simpl. lia.
  - rewrite filter_live_replicate. simpl. lia.
Qed.

(** C1. At most one scope-resolution request is outstanding at any time.
    After every sequence of renders, file-list changes and unmounts of the
    component, at most one [AbortController] is not aborted; and a scope
    change in any state so reached leaves every controller that existed before
    it aborted, allocates at most one new controller, and again leaves at most
    one that is not aborted. *)
Theorem at_most_one_request_in_flight (actions : list Action) :
  let m := fst (run actions (mount [])) in
  length (live (state m)) <= 1
  /\ forall p : Props,
       indexName p <> currentKnowledgeBaseRef (state m) ->
       let s' := Js.heap (scopeEffect p (state m)) in
       (forall c, c < length (controllers (state m)) -> signal_aborted c s' = true)
       /\ length (controllers s') <= S (length (controllers (state m)))
       /\ length (live s') <= 1.
Proof.
  intros m.
  destruct (run_invariant actions (mount []) mount_invariant) as [Hinv _].
  fold m in Hinv.
  split; [exact (pending_is_only_live_count _ Hinv) |].
  intros p Hchange s'.
  pose proof (scopeEffect_invariant p (state m) Hinv) as Hinv'. fold s' in Hinv'.
  pose proof (scopeEffect_requests p (state m) Hchange) as Hreq.
  simpl in Hreq. fold s' in Hreq.
  rewrite (aborted_pending _ Hinv) in Hreq.
  assert (Hcs : exists tail, controllers s'
                             = replicate (length (controllers (state m))) true ++ tail
                             /\ length tail <= 1).
  { destruct ((indexName p =? "") || isCreatingMode p);
      destruct Hreq as (_ & _ & ->).
    - exists []. rewrite app_nil_r. split; [reflexivity | simpl; lia].
    - exists [false]. split; [reflexivity | simpl; lia]. }
  destruct Hcs as (tail & Hcs & Htail).
  split; [| split].
  - intros c Hc. unfold signal_aborted. rewrite Hcs.
    rewrite lookup_app_l by (rewrite length_replicate; exact Hc).
    rewrite lookup_replicate_2 by exact Hc. reflexivity.
  - rewrite Hcs, length_app, length_replicate. lia.
  - exact (pending_is_only_live_count _ Hinv').
Qed.

Lemma at_most_one_request_in_flight_witness :
  let m := fst (run [Render (Scenario.props false "kb-a");
                     Render (Scenario.props false "kb-b")] (mount [])) in
  let p := Scenario.props false "kb-c" in
  let s' := Js.heap (scopeEffect p (state m)) in
  indexName p <> currentKnowledgeBaseRef (state m)
  /\ length (live (state m)) <= 1
  /\ length (live s') <= 1.
Proof.
  intros m p s'.
  assert (Hchange : indexName p <> currentKnowledgeBaseRef (state m))
    by (vm_compute; discriminate).
  pose proof (at_most_one_request_in_flight
                [Render (Scenario.props false "kb-a");
                 Render (Scenario.props false "kb-b")]) as Hthm.
  destruct Hthm as [Hlive Hstep].
  destruct (Hstep p Hchange) as (_ & _ & Hlive').
  repeat split; assumption.
Defined.

(** ** The file-list change handler *)

(** C6, as stated, fails: the handler created by a render for scope kb-b,
    called while the component still holds scope kb-a, discards the change,
    although the list goes from one uploading entry to one done entry. *)
Lemma handleChange_discarded_transition :
  let s := state (fst (run [Render (Scenario.props false "kb-a");
                            Change (Scenario.props false "kb-a")
                                   [Scenario.entry st_uploading];
                            Render (Scenario.props false "kb-a")] (mount []))) in
  let new := [Scenario.entry st_done] in
  completes_upload (prevFileListRef s) new = true
  /\ count is_ParentOnUpload
       (Js.trace (handleChange (Scenario.props false "kb-b") new s)) <> 1.
Proof. vm_compute. split; [reflexivity | discriminate]. Qed.

(** C6, amended. When the handler applies the change (creating-mode is on, or
    the scope of its render is the one the component holds) and the parent
    supplied an upload-complete callback, it fires that callback exactly once
    for a transition where the previous list held an entry with status
    uploading and the new list is non-empty with no entry in status uploading,
    and not at all for any other transition; so once from one uploading entry
    to one done entry, and never from the empty list to one uploading entry.
    A change that is not applied fires nothing. *)
Theorem handleChange_upload_complete
    (p : Props) (s : State) (newFileList : list UploadFile) :
  let run := handleChange p newFileList s in
  (isCreatingMode p = true \/ indexName p = currentKnowledgeBaseRef s ->
   forall cb, onUpload p = Some cb ->
     count is_ParentOnUpload (Js.trace run)
     = if completes_upload (prevFileListRef s) newFileList then 1 else 0)
  /\ (isCreatingMode p = false -> indexName p <> currentKnowledgeBaseRef s ->
      run = (Ret tt, s, []))
  /\ (forall u d, is_uploading u = true -> is_uploading d = false ->
        completes_upload [u] [d] = true)
  /\ (forall u, completes_upload [] [u] = false).
Proof.
  intros run. subst run. repeat split.
  - intros Happlied cb Hcb.
    assert (Hguard : isCreatingMode p || (indexName p =? currentKnowledgeBaseRef s) = true).
    { destruct Happlied as [-> | ->]; [reflexivity |].
      rewrite String.eqb_refl. apply orb_true_r. }
    component_unfold. simpl. rewrite Hguard. simpl.
    unfold completes_upload.
    destruct (existsb is_uploading (prevFileListRef s)
              && (Nat.ltb 0 (length newFileList)
                  && negb (existsb is_uploading newFileList))); simpl.
    + rewrite Hcb. simpl. destruct cb as [[] | e]; simpl; [| reflexivity].
      destruct (Nat.ltb 0 (length (omap originFileObj newFileList))); simpl;
        [| reflexivity].
      destruct (onFileSelect p (omap originFileObj newFileList)); reflexivity.
    + destruct (Nat.ltb 0 (length (omap originFileObj newFileList))); simpl;
        [| reflexivity].
      destruct (onFileSelect p (omap originFileObj newFileList)); reflexivity.
  - intros Hmode Hscope. component_unfold. simpl.
    rewrite Hmode, (eqb_false_of_neq _ _ Hscope). reflexivity.
  - intros u d Hu Hd. unfold completes_upload. simpl. rewrite Hu, Hd. reflexivity.
Qed.

Lemma handleChange_upload_complete_witness :
  let p := Scenario.props false "kb-a" in
  let s := set_prevFileListRef [Scenario.entry st_uploading]
             (set_currentKnowledgeBaseRef "kb-a" (initial [])) in
  (isCreatingMode p = true \/ indexName p = currentKnowledgeBaseRef s)
  /\ onUpload p = Some (Ret tt)
  /\ count is_ParentOnUpload
       (Js.trace (handleChange p [Scenario.entry st_done] s)) = 1
  /\ count is_ParentOnUpload
       (Js.trace (handleChange p [Scenario.entry st_uploading]
                    (set_prevFileListRef [] s))) = 0.
Proof.
  intros p s.
  assert (Happlied : isCreatingMode p = true \/ indexName p = currentKnowledgeBaseRef s)
    by (right; reflexivity).
  split; [exact Happlied |]. split; [reflexivity |]. split.
  - exact (proj1 (handleChange_upload_complete p s [Scenario.entry st_done])
             Happlied (Ret tt) eq_refl).
  - exact (proj1 (handleChange_upload_complete p (set_prevFileListRef [] s)
                    [Scenario.entry st_uploading])
             Happlied (Ret tt) eq_refl).
Defined.

(** ** The file-type gate *)

Section StringFacts.

Lemma length_append (a b : string) :
  String.length (a ++ b)%string = String.length a + String.length b.
Proof. induction a as [| c a IH]; simpl; [reflexivity | rewrite IH; reflexivity]. Qed.

Lemma substring_whole (s : string) : substring 0 (String.length s) s = s.
Proof. induction s as [| c s IH]; simpl; [reflexivity | rewrite IH; reflexivity]. Qed.

Lemma substring_after (pre suffix : string) :
  substring (String.length pre) (String.length suffix) (pre ++ suffix)%string = suffix.
Proof. induction pre as [| c pre IH]; simpl; [apply substring_whole | exact IH]. Qed.

Lemma substring_split (s : string) (k : nat) :
  k <= String.length s ->
  s = (substring 0 k s ++ substring k (String.length s - k) s)%string.
Proof.
  revert k. induction s as [| c s IH]; intros k Hk; simpl in *.
  - assert (k = 0) as -> by lia. reflexivity.
  - destruct k as [| k]; simpl.
    + rewrite substring_whole. reflexivity.
    + rewrite <- (IH k) by lia. reflexivity.
Qed.

(** [endsWith] holds exactly of the strings that are the suffix after some
    prefix. *)
Lemma endsWith_iff (s suffix : string) :
  endsWith s suffix = true <-> exists pre, s = (pre ++ suffix)%string.
Proof.
  unfold endsWith. rewrite andb_true_iff, Nat.leb_le, String.eqb_eq. split.
  - intros [Hle Hsub].
    exists (substring 0 (String.length s - String.length suffix) s).
    pose proof (substring_split s (String.length s - String.length suffix)) as Hsplit.
    replace (String.length s - (String.length s - String.length suffix))
      with (String.length suffix) in Hsplit by lia.
    rewrite Hsub in Hsplit. apply Hsplit. lia.
  - intros [pre ->]. rewrite length_append. split; [lia |].
    replace (String.length pre + String.length suffix - String.length suffix)
      with (String.length pre) by lia.
    apply substring_after.
Qed.

Lemma toLowerCase_ascii_append (a b : string) :
  toLowerCase_ascii (a ++ b) = (toLowerCase_ascii a ++ toLowerCase_ascii b)%string.
Proof. induction a as [| c a IH]; simpl; [reflexivity | rewrite IH; reflexivity]. Qed.

(** A suffix in lower case survives lower-casing. *)
Lemma toLowerCase_ascii_keeps_suffix (suffix : string) :
  toLowerCase_ascii suffix = suffix -> keeps_suffix toLowerCase_ascii suffix.
Proof.
  intros Hlow s Hends. apply endsWith_iff in Hends as [pre ->].
  apply endsWith_iff. exists (toLowerCase_ascii pre).
  rewrite toLowerCase_ascii_append, Hlow. reflexivity.
Qed.

(** A string and its suffix end in the same character. *)
Lemma endsWith_last (s suffix : string) (c : ascii) :
  endsWith s suffix = true ->
  get (String.length suffix - 1) suffix = Some c ->
  get (String.length s - 1) s = Some c.
Proof.
  intros Hends Hget. apply endsWith_iff in Hends as [pre ->].
  assert (Hlen : 1 <= String.length suffix).
  { destruct suffix; simpl in *; [discriminate | lia]. }
  rewrite length_append.
  replace (String.length pre + String.length suffix - 1)
    with (String.length suffix - 1 + String.length pre) by lia.
  rewrite <- append_correct2. exact Hget.
Qed.

Lemma endsWith_other_last (s suffix other : string) (c d : ascii) :
  get (String.length suffix - 1) suffix = Some c ->
  get (String.length other - 1) other = Some d ->
  c <> d ->
  endsWith s suffix = true -> endsWith s other = false.
Proof.
  intros Hc Hd Hne Hends.
  destruct (endsWith s other) eqn:Hother; [| reflexivity].
  pose proof (endsWith_last s suffix c Hends Hc) as H1.
  pose proof (endsWith_last s other d Hother Hd) as H2.
  rewrite H1 in H2. injection H2 as H2. contradiction.
Qed.

End StringFacts.

Section Gate.
Context {H : Type}.
Variable toLowerCase : string -> string.

(** The decision of [validateFileType], in one expression. *)
Lemma validateFileType_decision (file : File) (h : H) :
  validateFileType toLowerCase file h
  = if includes validTypes (type file)
       || (endsWith (toLowerCase (name file)) ".md"
           || endsWith (toLowerCase (name file)) ".markdown"
           || endsWith (toLowerCase (name file)) ".csv")
    then (Ret true, h, [])
    else (Ret false, h, [MessageError notice_unsupported]).
Proof.
  js_unfold. cbv zeta.
  destruct (includes validTypes (type file)); simpl; [reflexivity |].
  destruct (endsWith (toLowerCase (name file)) ".md"
            || endsWith (toLowerCase (name file)) ".markdown"
            || endsWith (toLowerCase (name file)) ".csv"); reflexivity.
Qed.

End Gate.

(** A file the gate rejects does not reach the list. *)
Lemma selectFile_rejected (toLowerCase : string -> string)
    (p : Props) (file : File) (entry : UploadFile) (s : State) :
  includes validTypes (type file)
  || (endsWith (toLowerCase (name file)) ".md"
      || endsWith (toLowerCase (name file)) ".markdown"
      || endsWith (toLowerCase (name file)) ".csv") = false ->
  UploadWidget.selectFile toLowerCase p file entry s
  = (Ret tt, s, [MessageError notice_unsupported]).
Proof.
  intros Hrejected.
  pose proof (validateFileType_decision toLowerCase file s) as Hgate.
  rewrite Hrejected in Hgate.
  unfold UploadWidget.selectFile. cbv beta delta [mbind M_bind bind].
  rewrite Hgate. reflexivity.
Qed.

Section GateClaims.
Context {H : Type}.
Variable toLowerCase : string -> string.

(** C7, amended. The gate accepts exactly the types PDF, Word (.docx),
    PowerPoint (.pptx), Excel (.xlsx), Markdown, plain text and CSV by the
    declared media type; it decides by the media type first and falls back to
    the suffix of the name, in lower case, whenever the media type is absent
    or unrecognized, but for the suffixes .md, .markdown and .csv only: a
    file whose media type is absent or unrecognized and whose name ends in
    .pdf, .docx, .pptx, .xlsx or .txt is rejected.  Every rejection shows a
    notification and keeps the file out of the list. *)
Theorem validateFileType_gate (file : File) (h : H) :
  let lower := toLowerCase (name file) in
  let by_type := includes validTypes (type file) in
  let by_suffix :=
    endsWith lower ".md" || endsWith lower ".markdown" || endsWith lower ".csv" in
  (by_type = true <-> In (type file) validTypes)
  /\ validateFileType toLowerCase file h
     = (if by_type || by_suffix
        then (Ret true, h, [])
        else (Ret false, h, [MessageError notice_unsupported]))
  /\ (by_type = false ->
      forall suffix, In suffix [".pdf"; ".docx"; ".pptx"; ".xlsx"; ".txt"] ->
        endsWith lower suffix = true ->
        validateFileType toLowerCase file h
        = (Ret false, h, [MessageError notice_unsupported]))
  /\ (by_type || by_suffix = false ->
      forall (p : Props) (entry : UploadFile) (s : State),
        UploadWidget.selectFile toLowerCase p file entry s
        = (Ret tt, s, [MessageError notice_unsupported])).
Proof.
  intros lower by_type by_suffix. split; [| split; [| split]].
  - unfold by_type, includes. rewrite existsb_exists. split.
    + intros (t & Hin & Heq). apply String.eqb_eq in Heq. subst t. exact Hin.
    + intros Hin. exists (type file). split; [exact Hin | apply String.eqb_refl].
  - apply validateFileType_decision.
  - intros Htype suffix Hin Hends.
    rewrite validateFileType_decision. fold lower by_type. rewrite Htype. simpl.
    assert (Hmd : endsWith lower ".md" = false
                  /\ endsWith lower ".markdown" = false
                  /\ endsWith lower ".csv" = false).
    { simpl in Hin.
      repeat (destruct Hin as [<- | Hin];
              [repeat split;
               (eapply endsWith_other_last; [| | | exact Hends];
                [reflexivity | reflexivity | discriminate]) |]).
      contradiction. }
    destruct Hmd as (-> & -> & ->). reflexivity.
  - intros Hrejected p entry s.
    apply selectFile_rejected. exact Hrejected.
Qed.

(** C8, amended. The gate on the inputs of its tests: a file with media type
    text/csv is accepted; a file with empty media type whose name ends in .md
    is accepted (lower-casing leaves that suffix in place); a file with media
    type image/png whose name in lower case ends in none of .md, .markdown,
    .csv is rejected with exactly one error notification. *)
Theorem validateFileType_examples (fileName : string) (h : H) :
  validateFileType toLowerCase (mkFile fileName "text/csv") h = (Ret true, h, [])
  /\ (keeps_suffix toLowerCase ".md" ->
      endsWith fileName ".md" = true ->
      validateFileType toLowerCase (mkFile fileName "") h = (Ret true, h, []))
  /\ (endsWith (toLowerCase fileName) ".md" = false ->
      endsWith (toLowerCase fileName) ".markdown" = false ->
      endsWith (toLowerCase fileName) ".csv" = false ->
      validateFileType toLowerCase (mkFile fileName "image/png") h
      = (Ret false, h, [MessageError notice_unsupported])
      /\ count is_MessageError
           (Js.trace (validateFileType toLowerCase (mkFile fileName "image/png") h))
         = 1).
Proof.
  split; [| split].
  - rewrite validateFileType_decision. reflexivity.
  - intros Hkeeps Hends. rewrite validateFileType_decision. simpl.
    rewrite (Hkeeps fileName Hends). reflexivity.
  - intros Hmd Hmarkdown Hcsv.
    rewrite validateFileType_decision. simpl.
    rewrite Hmd, Hmarkdown, Hcsv. split; reflexivity.
Qed.

End GateClaims.

(** C7, as stated, fails: a PDF whose media type is empty is not accepted by
    its suffix. *)
Lemma validateFileType_rejects_pdf_by_suffix :
  type Scenario.report_pdf = ""
  /\ In ".pdf" accepted_suffixes
  /\ endsWith (toLowerCase_ascii (name Scenario.report_pdf)) ".pdf" = true
  /\ validateFileType toLowerCase_ascii Scenario.report_pdf tt
     = (Ret false, tt, [MessageError notice_unsupported]).
Proof. vm_compute. repeat split; auto. Qed.

(** C8, as stated, fails: the name PHOTO.MD ends in none of .md, .markdown,
    .csv, and the file, of media type image/png, is accepted without any
    notification, because the gate compares the name in lower case. *)
Lemma validateFileType_accepts_upper_case_suffix :
  let photo := mkFile "PHOTO.MD" "image/png" in
  endsWith (name photo) ".md" = false
  /\ endsWith (name photo) ".markdown" = false
  /\ endsWith (name photo) ".csv" = false
  /\ validateFileType toLowerCase_ascii photo tt = (Ret true, tt, []).
Proof. vm_compute. repeat split. Qed.

Lemma validateFileType_gate_witness :
  let slides := mkFile "slides.PPTX" "" in
  includes validTypes (type slides) = false
  /\ In ".pptx" [".pdf"; ".docx"; ".pptx"; ".xlsx"; ".txt"]
  /\ endsWith (toLowerCase_ascii (name slides)) ".pptx" = true
  /\ validateFileType toLowerCase_ascii slides tt
     = (Ret false, tt, [MessageError notice_unsupported])
  /\ fileList (Js.heap (UploadWidget.selectFile toLowerCase_ascii
                          (Scenario.props false "") slides
                          (mkUploadFile "rc-upload-1" None (Some slides))
                          (initial [])))
     = [].
Proof.
  intros slides.
  assert (Hin : In ".pptx" [".pdf"; ".docx"; ".pptx"; ".xlsx"; ".txt"])
    by (simpl; auto).
  split; [reflexivity |]. split; [exact Hin |]. split; [reflexivity |].
  pose proof (validateFileType_gate toLowerCase_ascii slides tt) as Hgate.
  destruct Hgate as (_ & _ & Hsuffix & Hlist).
  split; [exact (Hsuffix eq_refl ".pptx" Hin eq_refl) |].
  rewrite (Hlist eq_refl). reflexivity.
Defined.

Lemma validateFileType_examples_witness :
  keeps_suffix toLowerCase_ascii ".md"
  /\ validateFileType toLowerCase_ascii Scenario.data_csv tt = (Ret true, tt, [])
  /\ endsWith (name Scenario.notes_md) ".md" = true
  /\ validateFileType toLowerCase_ascii Scenario.notes_md tt = (Ret true, tt, [])
  /\ endsWith (toLowerCase_ascii (name Scenario.photo_png)) ".md" = false
  /\ endsWith (toLowerCase_ascii (name Scenario.photo_png)) ".markdown" = false
  /\ endsWith (toLowerCase_ascii (name Scenario.photo_png)) ".csv" = false
  /\ validateFileType toLowerCase_ascii Scenario.photo_png tt
     = (Ret false, tt, [MessageError notice_unsupported]).
Proof.
  assert (Hkeeps : keeps_suffix toLowerCase_ascii ".md")
    by (apply toLowerCase_ascii_keeps_suffix; reflexivity).
  split; [exact Hkeeps |].
  split; [exact (proj1 (validateFileType_examples toLowerCase_ascii "data" tt)) |].
  split; [reflexivity |].
  split; [exact (proj1 (proj2 (validateFileType_examples toLowerCase_ascii
                                 "notes.md" tt)) Hkeeps eq_refl) |].
  repeat (split; [reflexivity |]).
  exact (proj1 (proj2 (proj2 (validateFileType_examples toLowerCase_ascii
                                "photo.png" tt))
                  eq_refl eq_refl eq_refl)).
Defined.

(** ** The upload adapter: [customUploadRequest] *)

Section Upload.
Context {H : Type}.
Variables (fetch : string -> FormData -> Ext H (Response H))
          (options : RequestOptions H)
          (effectiveUploadUrl newKnowledgeBaseName indexName : string)
          (currentKnowledgeBaseRef : H -> string).

Let upload (isCreatingMode : bool) :=
  customUploadRequest fetch options effectiveUploadUrl isCreatingMode
                      newKnowledgeBaseName indexName currentKnowledgeBaseRef.

(** C3, amended. With creating-mode off: if the target scope differs from
    the scope the component holds before the network call, the adapter calls
    [onError] with the scope-switched error without making the call; if it
    differs when the network call has returned a response, whatever the
    status of the response, the adapter calls [onError] with the
    scope-switched error right after the call; in both cases the success
    callback is never invoked.  The test is made at both points.  If the
    network call throws and the scope differs by then, the adapter reports
    nothing: no callback is invoked and nothing is shown. *)
Theorem customUploadRequest_scope_switched (h : H) :
  let body := upload_body (file options) indexName in
  (indexName <> currentKnowledgeBaseRef h ->
   (exists t, Js.trace (upload false h) = UploadError scope_switched :: t)
   /\ count is_network (Js.trace (upload false h)) = 0
   /\ fails_scope_switched (Js.trace (upload false h)))
  /\ (indexName = currentKnowledgeBaseRef h ->
      forall response h1,
        fetch effectiveUploadUrl body h = (Ret response, h1) ->
        indexName <> currentKnowledgeBaseRef h1 ->
        (exists t, Js.trace (upload false h)
                   = Fetch effectiveUploadUrl body :: UploadError scope_switched :: t)
        /\ fails_scope_switched (Js.trace (upload false h)))
  /\ (indexName = currentKnowledgeBaseRef h ->
      forall e h1,
        fetch effectiveUploadUrl body h = (Throw e, h1) ->
        indexName <> currentKnowledgeBaseRef h1 ->
        upload false h = (Ret tt, h1, [Fetch effectiveUploadUrl body])).
Proof.
  intros body. subst body. unfold upload, fails_scope_switched, upload_body.
  split; [| split].
  - intros Hbefore. js_unfold. simpl.
    rewrite (eqb_false_of_neq _ _ Hbefore). simpl.
    js_cases; repeat split; eauto.
  - intros Hsame response h1 Hfetch Hafter. js_unfold. simpl.
    rewrite (eqb_true_of_eq _ _ Hsame). simpl. rewrite Hfetch. simpl.
    rewrite (eqb_false_of_neq _ _ Hafter). simpl.
    repeat js_step; repeat split; simpl; eauto.
  - intros Hsame e h1 Hfetch Hafter. js_unfold. simpl.
    rewrite (eqb_true_of_eq _ _ Hsame). simpl. rewrite Hfetch. simpl.
    rewrite (eqb_false_of_neq _ _ Hafter). reflexivity.
Qed.

(** The scope test of the adapter, at heap [h]. *)
Let still_current (isCreatingMode : bool) (h : H) : bool :=
  scope_still_current currentKnowledgeBaseRef
    (if isCreatingMode then newKnowledgeBaseName else indexName)
    isCreatingMode h.

(** C4, amended. For an upload that passed the first scope test: when the
    network call, or the parsing of the response, throws, the adapter calls
    [onError] (and shows an error once [onError] has returned) if and only if
    the target scope is still the one the component holds or creating-mode is
    on, and otherwise reports nothing at all, [onError] included; when the
    response has a non-success status, the adapter always calls [onError] and,
    once it has returned, always shows an error: the upload-failed pair if
    the scope still matches or creating-mode is on, the scope-switched pair
    if not. *)
Theorem customUploadRequest_failure (isCreatingMode : bool) (h : H) :
  let effectiveIndexName :=
    if isCreatingMode then newKnowledgeBaseName else indexName in
  let body := upload_body (file options) effectiveIndexName in
  let failed := MessageError (notice_failed (file options)) in
  let switched := MessageError (notice_switched (file options)) in
  still_current isCreatingMode h = true ->
  (forall e h1,
      fetch effectiveUploadUrl body h = (Throw e, h1) ->
      if still_current isCreatingMode h1
      then forall r h2,
             onError options upload_failed h1 = (r, h2) ->
             upload isCreatingMode h
             = (r, h2,
                Fetch effectiveUploadUrl body :: UploadError upload_failed
                  :: (match r with Ret _ => [failed] | Throw _ => [] end))
      else upload isCreatingMode h = (Ret tt, h1, [Fetch effectiveUploadUrl body]))
  /\ (forall response h1 h2,
        fetch effectiveUploadUrl body h = (Ret response, h1) ->
        ok response = false ->
        onError options
          (if still_current isCreatingMode h1 then upload_failed else scope_switched) h1
        = (Ret tt, h2) ->
        upload isCreatingMode h
        = (Ret tt, h2,
           Fetch effectiveUploadUrl body
             :: (if still_current isCreatingMode h1
                 then [UploadError upload_failed; failed]
                 else [UploadError scope_switched; switched])))
  /\ (forall response h1 e h2,
        fetch effectiveUploadUrl body h = (Ret response, h1) ->
        still_current isCreatingMode h1 = true ->
        ok response = true ->
        json response h1 = (Throw e, h2) ->
        if still_current isCreatingMode h2
        then forall r h3,
               onError options upload_failed h2 = (r, h3) ->
               upload isCreatingMode h
               = (r, h3,
                  Fetch effectiveUploadUrl body :: UploadError upload_failed
                    :: (match r with Ret _ => [failed] | Throw _ => [] end))
        else upload isCreatingMode h = (Ret tt, h2, [Fetch effectiveUploadUrl body])).
Proof.
  intros effectiveIndexName body failed switched Hfirst.
  subst body failed switched.
  unfold upload, upload_body, still_current, scope_still_current,
    upload_failed, scope_switched, notice_failed, notice_switched in *.
  assert (Hguard : negb (effectiveIndexName =? currentKnowledgeBaseRef h)
                   && negb isCreatingMode = false).
  { subst effectiveIndexName.
    destruct isCreatingMode; [apply andb_false_r |].
    rewrite orb_false_r in Hfirst. rewrite Hfirst. reflexivity. }
  assert (Hsecond : forall h1,
             negb (effectiveIndexName =? currentKnowledgeBaseRef h1)
             && negb isCreatingMode
             = negb ((effectiveIndexName =? currentKnowledgeBaseRef h1)
                     || isCreatingMode)).
  { intros h1. symmetry. apply negb_orb. }
  fold effectiveIndexName.
  split; [| split].
  - intros e h1 Hfetch.
    destruct ((effectiveIndexName =? currentKnowledgeBaseRef h1) || isCreatingMode)
      eqn:Hcur.
    + intros r h2 Hcb. js_unfold. cbv zeta. fold effectiveIndexName.
      simpl. rewrite Hguard. simpl. rewrite Hfetch. simpl. rewrite Hcur. simpl.
      rewrite Hcb. destruct r as [[] | e']; reflexivity.
    + js_unfold. cbv zeta. fold effectiveIndexName.
      simpl. rewrite Hguard. simpl. rewrite Hfetch. simpl. rewrite Hcur. reflexivity.
  - intros response h1 h2 Hfetch Hok Hcb. js_unfold. cbv zeta.
    fold effectiveIndexName.
    simpl. rewrite Hguard. simpl. rewrite Hfetch. simpl. rewrite Hsecond.
    destruct ((effectiveIndexName =? currentKnowledgeBaseRef h1) || isCreatingMode);
      simpl.
    + rewrite Hok. simpl. rewrite Hcb. reflexivity.
    + rewrite Hcb. reflexivity.
  - intros response h1 e h2 Hfetch Hcur Hok Hjson.
    destruct ((effectiveIndexName =? currentKnowledgeBaseRef h2) || isCreatingMode)
      eqn:Hcur2.
    + intros r h3 Hcb. js_unfold. cbv zeta. fold effectiveIndexName.
      simpl. rewrite Hguard. simpl. rewrite Hfetch. simpl.
      rewrite Hsecond, Hcur. simpl. rewrite Hok. simpl. rewrite Hjson. simpl.
      rewrite Hcur2. simpl. rewrite Hcb. destruct r as [[] | e']; reflexivity.
    + js_unfold. cbv zeta. fold effectiveIndexName.
      simpl. rewrite Hguard. simpl. rewrite Hfetch. simpl.
      rewrite Hsecond, Hcur. simpl. rewrite Hok. simpl. rewrite Hjson. simpl.
      rewrite Hcur2. reflexivity.
Qed.

End Upload.

(** C3, as stated, fails: the network call throws while the scope has moved
    from kb-a to kb-b; the adapter then calls nothing, so it does not fail
    with the scope-switched error. *)
Lemma customUploadRequest_silent_on_thrown_switch :
  let run :=
    customUploadRequest
      (Scenario.transport (Throw Scenario.network_error) "kb-b")
      (Scenario.options Scenario.report_pdf)
      "/api/upload" false "" "kb-a" Scenario.current "kb-a" in
  "kb-a" <> Scenario.current (Js.heap run)
  /\ ~ fails_scope_switched (Js.trace run).
Proof.
  vm_compute. split; [discriminate |].
  intros [[Hin | []] _]. discriminate.
Qed.

Lemma customUploadRequest_scope_switched_witness :
  let response := mkResponse true (Scenario.quiet "{}") in
  let run :=
    customUploadRequest
      (Scenario.transport (Ret response) "kb-b")
      (Scenario.options Scenario.report_pdf)
      "/api/upload" false "" "kb-a" Scenario.current "kb-a" in
  "kb-a" = Scenario.current "kb-a"
  /\ "kb-a" <> Scenario.current "kb-b"
  /\ fails_scope_switched (Js.trace run).
Proof.
  intros response run.
  split; [reflexivity |].
  assert (Hafter : "kb-a" <> Scenario.current "kb-b") by (vm_compute; discriminate).
  split; [exact Hafter |].
  exact (proj2 (proj1 (proj2 (customUploadRequest_scope_switched
                                (Scenario.transport (Ret response) "kb-b")
                                (Scenario.options Scenario.report_pdf)
                                "/api/upload" "" "kb-a" Scenario.current "kb-a"))
                  eq_refl response "kb-b" eq_refl Hafter)).
Defined.

(** C4, as stated, fails twice over.  When the network call throws after the
    scope has moved on, [onError] is not called at all; and when the response
    has a non-success status after the scope has moved on, an error is shown
    all the same. *)
Lemma customUploadRequest_failure_not_as_stated :
  let thrown :=
    customUploadRequest
      (Scenario.transport (Throw Scenario.network_error) "kb-b")
      (Scenario.options Scenario.report_pdf)
      "/api/upload" false "" "kb-a" Scenario.current "kb-a" in
  let refused :=
    customUploadRequest
      (Scenario.transport (Ret (mkResponse false (Scenario.quiet "{}"))) "kb-b")
      (Scenario.options Scenario.report_pdf)
      "/api/upload" false "" "kb-a" Scenario.current "kb-a" in
  (scope_still_current Scenario.current "kb-a" false (Js.heap thrown) = false
   /\ count is_UploadError (Js.trace thrown) = 0)
  /\ (scope_still_current Scenario.current "kb-a" false (Js.heap refused) = false
      /\ count is_MessageError (Js.trace refused) = 1).
Proof. vm_compute. repeat split. Qed.

Lemma customUploadRequest_failure_witness :
  let fetch :=
    Scenario.transport (Ret (mkResponse false (Scenario.quiet "{}"))) "kb-a" in
  let options := Scenario.options Scenario.report_pdf in
  scope_still_current Scenario.current "kb-a" false "kb-a" = true
  /\ customUploadRequest fetch options "/api/upload" false "" "kb-a"
       Scenario.current "kb-a"
     = (Ret tt, "kb-a",
        [Fetch "/api/upload" (upload_body Scenario.report_pdf "kb-a");
         UploadError upload_failed;
         MessageError (notice_failed Scenario.report_pdf)]).
Proof.
  intros fetch options.
  split; [reflexivity |].
  exact (proj1 (proj2 (customUploadRequest_failure fetch options "/api/upload" ""
                         "kb-a" Scenario.current false "kb-a" eq_refl))
           (mkResponse false (Scenario.quiet "{}")) "kb-a" "kb-a"
           eq_refl eq_refl eq_refl).
Defined.

(** * Further properties of the upload adapter *)

Section UploadPaths.
Context {H : Type}.
Variables (fetch : string -> FormData -> Ext H (Response H))
          (options : RequestOptions H)
          (effectiveUploadUrl newKnowledgeBaseName indexName : string)
          (currentKnowledgeBaseRef : H -> string).

Let upload (isCreatingMode : bool) :=
  customUploadRequest fetch options effectiveUploadUrl isCreatingMode
                      newKnowledgeBaseName indexName currentKnowledgeBaseRef.

Let target (isCreatingMode : bool) : string :=
  if isCreatingMode then newKnowledgeBaseName else indexName.

Let still_current (isCreatingMode : bool) (h : H) : bool :=
  scope_still_current currentKnowledgeBaseRef (target isCreatingMode)
                      isCreatingMode h.

(** The two scope tests of the adapter, in terms of [scope_still_current]. *)
Lemma scope_test (isCreatingMode : bool) (h : H) :
  negb (target isCreatingMode =? currentKnowledgeBaseRef h) && negb isCreatingMode
  = negb (still_current isCreatingMode h).
Proof. unfold still_current, scope_still_current. symmetry. apply negb_orb. Qed.

(** X1. A successful upload: the scope test passes before and after the
    network call, the response has a success status and its body parses.  The
    adapter then posts the file with the target scope as [index_name] and
    hands the parsed body and the file to [onSuccess], once, and does nothing
    else; the scope is not tested again after the body is parsed. *)
Theorem customUploadRequest_success
    (isCreatingMode : bool) (h h1 h2 h3 : H)
    (response : Response H) (result : Json) :
  let body := upload_body (file options) (target isCreatingMode) in
  still_current isCreatingMode h = true ->
  fetch effectiveUploadUrl body h = (Ret response, h1) ->
  still_current isCreatingMode h1 = true ->
  ok response = true ->
  json response h1 = (Ret result, h2) ->
  onSuccess options result (file options) h2 = (Ret tt, h3) ->
  upload isCreatingMode h
  = (Ret tt, h3,
     [Fetch effectiveUploadUrl body; UploadSuccess result (file options)]).
Proof.
  intros body Hfirst Hfetch Hsecond Hok Hjson Hcb. subst body.
  pose proof (scope_test isCreatingMode h) as T0.
  pose proof (scope_test isCreatingMode h1) as T1.
  rewrite Hfirst in T0. rewrite Hsecond in T1.
  unfold upload, upload_body, target in *.
  js_unfold. cbv zeta. simpl. rewrite T0. simpl. rewrite Hfetch. simpl.
  rewrite T1. simpl. rewrite Hok. simpl. rewrite Hjson. simpl. rewrite Hcb.
  reflexivity.
Qed.

(** X2. When the success callback throws, the adapter treats it as a failed
    upload: if the scope still matches by then (or creating-mode is on) it
    calls [onError] with the upload-failed error and shows the failure, so
    both callbacks have been invoked for the same file. *)
Theorem customUploadRequest_success_callback_throws
    (isCreatingMode : bool) (h h1 h2 h3 h4 : H)
    (response : Response H) (result : Json) (e : Error) :
  let body := upload_body (file options) (target isCreatingMode) in
  still_current isCreatingMode h = true ->
  fetch effectiveUploadUrl body h = (Ret response, h1) ->
  still_current isCreatingMode h1 = true ->
  ok response = true ->
  json response h1 = (Ret result, h2) ->
  onSuccess options result (file options) h2 = (Throw e, h3) ->
  still_current isCreatingMode h3 = true ->
  onError options upload_failed h3 = (Ret tt, h4) ->
  upload isCreatingMode h
  = (Ret tt, h4,
     [Fetch effectiveUploadUrl body;
      UploadSuccess result (file options);
      UploadError upload_failed;
      MessageError (notice_failed (file options))]).
Proof.
  intros body Hfirst Hfetch Hsecond Hok Hjson Hcb Hthird Herr. subst body.
  pose proof (scope_test isCreatingMode h) as T0.
  pose proof (scope_test isCreatingMode h1) as T1.
  rewrite Hfirst in T0. rewrite Hsecond in T1.
  unfold upload, upload_body, still_current, scope_still_current, target,
    upload_failed, notice_failed in *.
  js_unfold. cbv zeta. simpl. rewrite T0. simpl. rewrite Hfetch. simpl.
  rewrite T1. simpl. rewrite Hok. simpl. rewrite Hjson. simpl. rewrite Hcb.
  simpl. rewrite Hthird. simpl. rewrite Herr. reflexivity.
Qed.

(** Closing a branch of the adapter in which [onSuccess] was not reached. *)
Ltac no_success_event :=
  simpl; let Hin := fresh "Hin" in
  intros Hin;
  repeat (destruct Hin as [Hin | Hin]; [try discriminate |]);
  try contradiction.

(** X3. The success callback is reached only on the success path: if
    [onSuccess] was invoked at all, it was for the file of the request, the
    scope test passed before and after the network call, the response had a
    success status and the value handed over is its parsed body. *)
Theorem customUploadRequest_success_is_earned
    (isCreatingMode : bool) (h : H) (result : Json) (f : File) :
  let body := upload_body (file options) (target isCreatingMode) in
  In (UploadSuccess result f) (Js.trace (upload isCreatingMode h)) ->
  f = file options
  /\ still_current isCreatingMode h = true
  /\ exists response h1 h2,
       fetch effectiveUploadUrl body h = (Ret response, h1)
       /\ still_current isCreatingMode h1 = true
       /\ ok response = true
       /\ json response h1 = (Ret result, h2).
Proof.
  intros body. subst body.
  pose proof (scope_test isCreatingMode h) as T0.
  assert (T1 := scope_test isCreatingMode).
  unfold upload, upload_body, target in *.
  js_unfold. cbv zeta. simpl. rewrite T0.
  destruct (still_current isCreatingMode h) eqn:Hc0; simpl;
    [| repeat js_step; no_success_event].
  destruct (fetch effectiveUploadUrl _ h) as [[response | e] h1] eqn:Hfetch; simpl;
    [| repeat js_step; no_success_event].
  rewrite T1.
  destruct (still_current isCreatingMode h1) eqn:Hc1; simpl;
    [| repeat js_step; no_success_event].
  destruct (ok response) eqn:Hok; simpl;
    [| repeat js_step; no_success_event].
  destruct (json response h1) as [[parsed | e] h2] eqn:Hjson; simpl;
    [| repeat js_step; no_success_event].
  repeat js_step; no_success_event;
    injection Hin as <- <-;
    (split; [reflexivity |]); (split; [reflexivity |]);
    exists response, h1, h2; auto.
Qed.

(** X4. With callbacks that return normally the adapter always settles
    normally, whatever the transport does: it makes at most one network call,
    invokes at most one of the two callbacks and at most once, and shows
    exactly one error for each call of [onError]. *)
Theorem customUploadRequest_settles (isCreatingMode : bool) (h : H) :
  (forall e h0, exists h', onError options e h0 = (Ret tt, h')) ->
  (forall r f h0, exists h', onSuccess options r f h0 = (Ret tt, h')) ->
  let run := upload isCreatingMode h in
  Js.result run = Ret tt
  /\ count is_network (Js.trace run) <= 1
  /\ count is_UploadSuccess (Js.trace run) + count is_UploadError (Js.trace run) <= 1
  /\ count is_MessageError (Js.trace run) = count is_UploadError (Js.trace run).
Proof.
  intros Herr Hsucc run. subst run. unfold upload.
  js_unfold. cbv zeta. simpl.
  repeat js_step;
    try match goal with
      | E : onError options ?e ?h0 = (Throw _, _) |- _ =>
          destruct (Herr e h0) as [? Hq]; rewrite Hq in E; discriminate
      | E : onSuccess options ?r ?f ?h0 = (Throw _, _) |- _ =>
          destruct (Hsucc r f h0) as [? Hq]; rewrite Hq in E; discriminate
      end;
    repeat match goal with u : unit |- _ => destruct u end;
    unfold count; simpl; repeat split; lia.
Qed.

(** X5. In creating-mode the scope tests never fire: whatever [indexName] and
    the scope the component holds, the adapter makes the network call, with
    the name of the knowledge base being created as [index_name], and never
    reports the scope-switched error. *)
Theorem customUploadRequest_creating_mode (h : H) :
  exists t,
    Js.trace (upload true h)
    = Fetch effectiveUploadUrl (upload_body (file options) newKnowledgeBaseName) :: t
    /\ ~ In (UploadError scope_switched) t.
Proof.
  unfold upload, upload_body, scope_switched. js_unfold. cbv zeta. simpl.
  rewrite !andb_false_r. simpl.
  repeat js_step;
    try match goal with
      | Hb : _ && false = true |- _ => rewrite andb_false_r in Hb; discriminate
      end;
    eexists; (split; [reflexivity |]);
    unfold new_Error; simpl; intros Hin;
    repeat (destruct Hin as [Hin | Hin]; [try discriminate |]);
    try contradiction.
Qed.

End UploadPaths.

Lemma customUploadRequest_success_witness :
  customUploadRequest
    (Scenario.transport (Ret Scenario2.ok_response) "kb-a")
    (Scenario.options Scenario.report_pdf)
    "/api/upload" false "" "kb-a" Scenario.current "kb-a"
  = (Ret tt, "kb-a",
     [Fetch "/api/upload" (upload_body Scenario.report_pdf "kb-a");
      UploadSuccess "{}" Scenario.report_pdf]).
Proof.
  exact (customUploadRequest_success
           (Scenario.transport (Ret Scenario2.ok_response) "kb-a")
           (Scenario.options Scenario.report_pdf)
           "/api/upload" "" "kb-a" Scenario.current
           false "kb-a" "kb-a" "kb-a" "kb-a" Scenario2.ok_response "{}"
           eq_refl eq_refl eq_refl eq_refl eq_refl eq_refl).
Defined.

Lemma customUploadRequest_success_callback_throws_witness :
  customUploadRequest
    (Scenario.transport (Ret Scenario2.ok_response) "kb-a")
    (Scenario2.options_throwing Scenario.report_pdf)
    "/api/upload" false "" "kb-a" Scenario.current "kb-a"
  = (Ret tt, "kb-a",
     [Fetch "/api/upload" (upload_body Scenario.report_pdf "kb-a");
      UploadSuccess "{}" Scenario.report_pdf;
      UploadError upload_failed;
      MessageError (notice_failed Scenario.report_pdf)]).
Proof.
  exact (customUploadRequest_success_callback_throws
           (Scenario.transport (Ret Scenario2.ok_response) "kb-a")
           (Scenario2.options_throwing Scenario.report_pdf)
           "/api/upload" "" "kb-a" Scenario.current
           false "kb-a" "kb-a" "kb-a" "kb-a" "kb-a" Scenario2.ok_response "{}"
           (new_Error "render failed")
           eq_refl eq_refl eq_refl eq_refl eq_refl eq_refl eq_refl eq_refl).
Defined.

Lemma customUploadRequest_success_is_earned_witness :
  let run :=
    customUploadRequest
      (Scenario.transport (Ret Scenario2.ok_response) "kb-a")
      (Scenario.options Scenario.report_pdf)
      "/api/upload" false "" "kb-a" Scenario.current "kb-a" in
  In (UploadSuccess "{}" Scenario.report_pdf) (Js.trace run)
  /\ scope_still_current Scenario.current "kb-a" false "kb-a" = true.
Proof.
  intros run.
  assert (Hin : In (UploadSuccess "{}" Scenario.report_pdf) (Js.trace run))
    by (right; left; reflexivity).
  split; [exact Hin |].
  exact (proj1 (proj2 (customUploadRequest_success_is_earned
                         (Scenario.transport (Ret Scenario2.ok_response) "kb-a")
                         (Scenario.options Scenario.report_pdf)
                         "/api/upload" "" "kb-a" Scenario.current
                         false "kb-a" "{}" Scenario.report_pdf Hin))).
Defined.

Lemma customUploadRequest_settles_witness :
  let run :=
    customUploadRequest
      (Scenario.transport (Throw Scenario.network_error) "kb-b")
      (Scenario.options Scenario.report_pdf)
      "/api/upload" false "" "kb-a" Scenario.current "kb-a" in
  Js.result run = Ret tt
  /\ count is_UploadSuccess (Js.trace run) + count is_UploadError (Js.trace run) <= 1.
Proof.
  intros run.
  pose proof (customUploadRequest_settles
                (Scenario.transport (Throw Scenario.network_error) "kb-b")
                (Scenario.options Scenario.report_pdf)
                "/api/upload" "" "kb-a" Scenario.current false "kb-a") as Hthm.
  destruct Hthm as (Hres & _ & Hone & _).
  - intros e h0. exists h0. reflexivity.
  - intros r f h0. exists h0. reflexivity.
  - split; assumption.
Defined.

(** * Further properties of the other service functions *)

(** X6. The name-existence check always settles with an answer: it makes
    exactly one call of the service, never throws, leaves the heap as the
    service left it, logs to the console exactly when the service threw, and
    answers [true] only when the service answered [true]. *)
Theorem checkKnowledgeBaseNameExists_settles
    {H : Type} (service : string -> Ext H bool)
    (knowledgeBaseName : string) (h : H) :
  let run := checkKnowledgeBaseNameExists service knowledgeBaseName h in
  Js.result run
  = Ret (match fst (service knowledgeBaseName h) with
         | Ret b => b
         | Throw _ => false
         end)
  /\ Js.heap run = snd (service knowledgeBaseName h)
  /\ count is_network (Js.trace run) = 1
  /\ Js.trace run
     = NameCheck knowledgeBaseName
         :: (match fst (service knowledgeBaseName h) with
             | Ret _ => []
             | Throw _ => [ConsoleError "检查知识库名称失败:"]
             end).
Proof.
  intros run. subst run. js_unfold. simpl.
  destruct (service knowledgeBaseName h) as [[b | e] h1]; simpl;
    repeat split; reflexivity.
Qed.

(** X7. Every call of [onError] by a resolution comes with exactly one
    notification, and there is at most one such call: for every input,
    whatever the callbacks do, the numbers of [message.error] and of
    [onError] calls agree and are at most one, and [onError] is called only
    after [onSuccess] was. *)
Theorem fetchKnowledgeBaseInfo_one_notice_per_error
    {H : Type} (indexName : string) (abortController : H -> bool)
    (currentKnowledgeBaseRef : H -> string)
    (onSuccess : Ext H unit) (onError : Error -> Ext H unit) (h : H) :
  let run := fetchKnowledgeBaseInfo indexName abortController
               currentKnowledgeBaseRef onSuccess onError h in
  count is_MessageError (Js.trace run) = count is_InfoError (Js.trace run)
  /\ count is_InfoError (Js.trace run) <= 1
  /\ count is_InfoError (Js.trace run) <= count is_InfoSuccess (Js.trace run).
Proof.
  intros run. subst run. js_unfold. simpl.
  repeat js_step;
    repeat match goal with u : unit |- _ => destruct u end;
    unfold count; simpl; repeat split; lia.
Qed.

(** X8. The gate decides on the name in lower case: two files with the same
    media type whose names have the same lower-case form, as names that
    differ only in the case of ASCII letters do, get the same verdict and the
    same notification. *)
Theorem validateFileType_ignores_case
    {H : Type} (toLowerCase : string -> string)
    (name1 name2 mediaType : string) (h : H) :
  toLowerCase name1 = toLowerCase name2 ->
  validateFileType toLowerCase (mkFile name1 mediaType) h
  = validateFileType toLowerCase (mkFile name2 mediaType) h.
Proof.
  intros Hsame. rewrite !validateFileType_decision. simpl. rewrite Hsame.
  reflexivity.
Qed.

Lemma validateFileType_ignores_case_witness :
  toLowerCase_ascii "NOTES.Md" = toLowerCase_ascii "notes.md"
  /\ validateFileType toLowerCase_ascii (mkFile "NOTES.Md" "") tt
     = validateFileType toLowerCase_ascii (mkFile "notes.md" "") tt.
Proof.
  split; [reflexivity |].
  apply (validateFileType_ignores_case toLowerCase_ascii "NOTES.Md" "notes.md" "" tt).
  reflexivity.
Defined.

(** * Further properties of the component *)

(** The effect of a scope change on every cell of the component. *)
Lemma scopeEffect_change (p : Props) (s : State) :
  indexName p <> currentKnowledgeBaseRef s ->
  let cs := match pendingRequestRef s with
            | Some c => <[c := true]> (controllers s)
            | None => controllers s
            end in
  let base := mkState [] false false true (indexName p) None (prevFileListRef s) cs in
  scopeEffect p s
  = if (indexName p =? "") || isCreatingMode p
    then (Ret false, base, [])
    else (Ret true,
          set_pendingRequestRef (Some (length cs)) (set_controllers (cs ++ [false]) base),
          [InfoSuccess]).
Proof.
  intros Hchange cs base. subst base.
  assert (Hmid : forall l : list bool, (l ++ [false]) !! length l = Some false).
  { intros l. apply list_lookup_middle. reflexivity. }
  destruct s as [files exists_ loading ready current pending prev ctrls].
  component_unfold. simpl in *.
  rewrite (eqb_false_of_neq _ _ Hchange).
  destruct pending as [c |]; simpl;
    destruct ((indexName p =? "") || isCreatingMode p); simpl; try reflexivity;
    unfold signal_aborted; simpl; rewrite Hmid; simpl;
    rewrite String.eqb_refl; reflexivity.
Qed.

Lemma scopeEffect_change_cells (p : Props) (s : State) :
  indexName p <> currentKnowledgeBaseRef s ->
  let s' := Js.heap (scopeEffect p s) in
  fileList s' = []
  /\ nameExists s' = false
  /\ isLoading s' = false
  /\ isKnowledgeBaseReady s' = true
  /\ currentKnowledgeBaseRef s' = indexName p
  /\ prevFileListRef s' = prevFileListRef s.
Proof.
  intros Hchange s'. subst s'. rewrite (scopeEffect_change p s Hchange).
  destruct ((indexName p =? "") || isCreatingMode p); simpl; repeat split.
Qed.

(** X9. Every scope change resets the component and ends settled: whatever
    the new scope, the file list is empty, the name-exists flag is off, the
    scope reference holds the new scope, the loading flag is off and the
    readiness flag is on when the effect returns; the resolution has already
    completed inside the effect. *)
Theorem scope_change_resets (p : Props) (s : State) :
  indexName p <> currentKnowledgeBaseRef s ->
  let s' := Js.heap (scopeEffect p s) in
  fileList s' = []
  /\ nameExists s' = false
  /\ isLoading s' = false
  /\ isKnowledgeBaseReady s' = true
  /\ currentKnowledgeBaseRef s' = indexName p
  /\ prevFileListRef s' = prevFileListRef s.
Proof.
  intros Hchange s'. subst s'.
  rewrite (scopeEffect_change p s Hchange).
  destruct ((indexName p =? "") || isCreatingMode p); simpl.
  - repeat split.
  - repeat split.
Qed.

Lemma scope_change_resets_witness :
  let s := setFileList [Scenario.entry st_done]
             (set_currentKnowledgeBaseRef "kb-a" (initial [])) in
  let s' := Js.heap (scopeEffect (Scenario.props false "kb-b") s) in
  indexName (Scenario.props false "kb-b") <> currentKnowledgeBaseRef s
  /\ fileList s' = []
  /\ isKnowledgeBaseReady s' = true.
Proof.
  intros s s'.
  assert (Hchange : indexName (Scenario.props false "kb-b") <> currentKnowledgeBaseRef s)
    by (vm_compute; discriminate).
  split; [exact Hchange |].
  destruct (scope_change_resets (Scenario.props false "kb-b") s Hchange)
    as (Hlist & _ & _ & Hready & _).
  split; assumption.
Defined.

(** X10. A change to a resolvable scope (not empty, creating-mode off) starts
    exactly one resolution: one new controller is allocated, it is the pending
    one and its signal is not aborted, the effect hands back its cleanup
    function, and the only event is the one call of the success callback of
    the resolution. *)
Theorem scope_change_starts_one_resolution (p : Props) (s : State) :
  indexName p <> currentKnowledgeBaseRef s ->
  indexName p <> "" ->
  isCreatingMode p = false ->
  let r := scopeEffect p s in
  Js.result r = Ret true
  /\ Js.trace r = [InfoSuccess]
  /\ length (controllers (Js.heap r)) = S (length (controllers s))
  /\ pendingRequestRef (Js.heap r) = Some (length (controllers s))
  /\ signal_aborted (length (controllers s)) (Js.heap r) = false.
Proof.
  intros Hchange Hname Hmode r. subst r.
  rewrite (scopeEffect_change p s Hchange).
  rewrite Hmode, (eqb_false_of_neq _ _ Hname). simpl.
  assert (Hlen : length (match pendingRequestRef s with
                         | Some c => <[c := true]> (controllers s)
                         | None => controllers s
                         end) = length (controllers s)).
  { destruct (pendingRequestRef s); [apply length_insert | reflexivity]. }
  repeat split.
  - rewrite length_app, Hlen. simpl. lia.
  - rewrite Hlen. reflexivity.
  - unfold signal_aborted. simpl. rewrite <- Hlen.
    rewrite list_lookup_middle by reflexivity. reflexivity.
Qed.

Lemma scope_change_starts_one_resolution_witness :
  let p := Scenario.props false "kb-a" in
  indexName p <> currentKnowledgeBaseRef (initial [])
  /\ indexName p <> ""
  /\ isCreatingMode p = false
  /\ Js.trace (scopeEffect p (initial [])) = [InfoSuccess].
Proof.
  intros p.
  assert (H1 : indexName p <> currentKnowledgeBaseRef (initial []))
    by (vm_compute; discriminate).
  assert (H2 : indexName p <> "") by (vm_compute; discriminate).
  split; [exact H1 |]. split; [exact H2 |]. split; [reflexivity |].
  exact (proj1 (proj2 (scope_change_starts_one_resolution p (initial [])
                         H1 H2 eq_refl))).
Defined.

(** X11. The scope effect is idempotent: run again with the same props, right
    after a run, it changes nothing, calls nothing and returns no cleanup
    function. *)
Theorem scopeEffect_idempotent (p : Props) (s : State) :
  let s' := Js.heap (scopeEffect p s) in
  scopeEffect p s' = (Ret false, s', []).
Proof.
  intros s'. apply scopeEffect_same_scope. subst s'.
  destruct (String.eqb_spec (indexName p) (currentKnowledgeBaseRef s)) as [Hsame | Hchange].
  - rewrite (scopeEffect_same_scope p s Hsame). exact Hsame.
  - destruct (scopeEffect_change_cells p s Hchange) as (_ & _ & _ & _ & Hcur & _).
    symmetry. exact Hcur.
Qed.

(** *** Along a run *)

Lemma run_app (a b : list Action) (m : Mounted) :
  run (a ++ b) m
  = (fst (run b (fst (run a m))), snd (run a m) ++ snd (run b (fst (run a m)))).
Proof.
  revert m. induction a as [| x a IH]; intros m; simpl.
  - destruct (run b m). reflexivity.
  - destruct (step x m) as [m1 t1]. rewrite IH.
    destruct (run a m1) as [m2 t2]. simpl.
    destruct (run b m2) as [m3 t3]. simpl. rewrite app_assoc. reflexivity.
Qed.

Lemma scopeEffectCleanup_run (s : State) :
  scopeEffectCleanup s
  = (Ret tt,
     match pendingRequestRef s with
     | Some c => set_pendingRequestRef None
                   (set_controllers (<[c := true]> (controllers s)) s)
     | None => s
     end, []).
Proof.
  component_unfold. simpl. destruct (pendingRequestRef s); reflexivity.
Qed.

(** What the scope effect leaves, whether the scope changed or not. *)
Lemma scopeEffect_settles (p : Props) (s : State) :
  isLoading s = false ->
  (currentKnowledgeBaseRef s <> "" -> isKnowledgeBaseReady s = true) ->
  let s' := Js.heap (scopeEffect p s) in
  isLoading s' = false
  /\ (currentKnowledgeBaseRef s' <> "" -> isKnowledgeBaseReady s' = true)
  /\ currentKnowledgeBaseRef s' = indexName p.
Proof.
  intros Hload Hready s'. subst s'.
  destruct (String.eqb_spec (indexName p) (currentKnowledgeBaseRef s)) as [Hsame | Hchange].
  - rewrite (scopeEffect_same_scope p s Hsame). simpl. auto.
  - destruct (scopeEffect_change_cells p s Hchange) as (_ & _ & Hl & Hr & Hc & _). auto.
Qed.

Lemma handleChange_flags (p : Props) (l : list UploadFile) (s : State) :
  let s' := Js.heap (handleChange p l s) in
  isLoading s' = isLoading s
  /\ isKnowledgeBaseReady s' = isKnowledgeBaseReady s
  /\ currentKnowledgeBaseRef s' = currentKnowledgeBaseRef s
  /\ prevFileListRef s' = prevFileListRef s.
Proof.
  component_unfold. simpl.
  destruct (isCreatingMode p || (indexName p =? currentKnowledgeBaseRef s)); simpl;
    [| auto].
  destruct (existsb is_uploading (prevFileListRef s)
            && (Nat.ltb 0 (length l) && negb (existsb is_uploading l))); simpl;
    [destruct (onUpload p) as [[[] | e] |]; simpl; auto |];
    destruct (Nat.ltb 0 (length (omap originFileObj l))); simpl; auto;
    destruct (onFileSelect p (omap originFileObj l)); simpl; auto.
Qed.

Lemma step_settled (a : Action) (m : Mounted) :
  settled m -> settled (fst (step a m)).
Proof.
  intros (Hload & Hready & Hdeps). destruct a as [p | p l |]; simpl.
  - destruct (same_deps p (scopeDeps m)) eqn:Hsame; simpl.
    + split; [exact Hload |]. split; [exact Hready | exact Hdeps].
    + set (s0 := set_prevFileListRef (fileList (state m)) (state m)).
      assert (H1 : exists s1,
                 (if scopeCleanup m then scopeEffectCleanup else mret tt) s0
                 = (Ret tt, s1, [])
                 /\ isLoading s1 = false
                 /\ (currentKnowledgeBaseRef s1 <> "" -> isKnowledgeBaseReady s1 = true)).
      { destruct (scopeCleanup m).
        - rewrite scopeEffectCleanup_run. eexists. split; [reflexivity |].
          destruct (pendingRequestRef s0); simpl; auto.
        - exists s0. auto. }
      destruct H1 as (s1 & -> & Hl1 & Hr1).
      pose proof (scopeEffect_settles p s1 Hl1 Hr1) as H2. unfold Js.heap in H2.
      destruct (scopeEffect p s1) as [[r2 s2] t2]. simpl in *.
      destruct H2 as (Hl2 & Hr2 & Hc2).
      split; [exact Hl2 |]. split; [exact Hr2 |].
      intros i c Heq. injection Heq as <- <-. exact Hc2.
  - pose proof (handleChange_flags p l (state m)) as Hf. unfold Js.heap in Hf.
    destruct (handleChange p l (state m)) as [[r1 s1] t1]. simpl in *.
    destruct Hf as (Hl & Hr & Hc & _).
    unfold settled. simpl. rewrite Hl, Hr, Hc. split; [exact Hload |]. split; [exact Hready | exact Hdeps].
  - destruct ((if scopeCleanup m then scopeEffectCleanup else mret tt) (state m))
      as [[r1 s1] t1].
    simpl. split; [reflexivity |]. split; [intros Hne; contradiction |].
    intros i c Heq. discriminate.
Qed.

Lemma run_settled (actions : list Action) (m : Mounted) :
  settled m -> settled (fst (run actions m)).
Proof.
  revert m. induction actions as [| a rest IH]; intros m Hm; simpl; [exact Hm |].
  pose proof (step_settled a m Hm) as H1.
  destruct (step a m) as [m1 t1]. simpl in H1.
  specialize (IH m1 H1).
  destruct (run rest m1) as [m2 t2]. exact IH.
Qed.

Lemma mount_settled (cs : list bool) : settled (mount cs).
Proof.
  split; [reflexivity |]. split; [intros Hne; contradiction | discriminate].
Qed.

(** X12. The loading state is never left on: after every sequence of renders,
    file-list changes and unmounts the loading flag is off, and as soon as the
    component holds a non-empty scope the readiness flag is on. *)
Theorem component_never_left_loading (actions : list Action) :
  let s := state (fst (run actions (mount []))) in
  isLoading s = false
  /\ (currentKnowledgeBaseRef s <> "" -> isKnowledgeBaseReady s = true).
Proof.
  intros s.
  destruct (run_settled actions (mount []) (mount_settled [])) as (Hl & Hr & _).
  split; assumption.
Qed.

Lemma component_never_left_loading_witness :
  let s := state (fst (run [Render (Scenario.props false "kb-a");
                            Change (Scenario.props false "kb-a")
                                   [Scenario.entry st_uploading];
                            Render (Scenario.props false "kb-b")] (mount []))) in
  currentKnowledgeBaseRef s <> ""
  /\ isLoading s = false
  /\ isKnowledgeBaseReady s = true.
Proof.
  intros s.
  assert (Hne : currentKnowledgeBaseRef s <> "") by (vm_compute; discriminate).
  destruct (component_never_left_loading
              [Render (Scenario.props false "kb-a");
               Change (Scenario.props false "kb-a") [Scenario.entry st_uploading];
               Render (Scenario.props false "kb-b")]) as [Hl Hr].
  split; [exact Hne |]. split; [exact Hl | exact (Hr Hne)].
Defined.

Lemma handleChange_applied_fileList (p : Props) (l : list UploadFile) (s : State) :
  isCreatingMode p = true \/ indexName p = currentKnowledgeBaseRef s ->
  fileList (Js.heap (handleChange p l s)) = l.
Proof.
  intros Happlied.
  assert (Hguard : isCreatingMode p || (indexName p =? currentKnowledgeBaseRef s) = true).
  { destruct Happlied as [-> | ->]; [reflexivity |].
    rewrite String.eqb_refl. apply orb_true_r. }
  component_unfold. simpl. rewrite Hguard. simpl.
  destruct (existsb is_uploading (prevFileListRef s)
            && (Nat.ltb 0 (length l) && negb (existsb is_uploading l))); simpl;
    [destruct (onUpload p) as [[[] | e] |]; simpl; auto |];
    destruct (Nat.ltb 0 (length (omap originFileObj l))); simpl; auto;
    destruct (onFileSelect p (omap originFileObj l)); simpl; auto.
Qed.

Lemma scopeEffect_tracks_scope (p : Props) (s : State) :
  currentKnowledgeBaseRef (Js.heap (scopeEffect p s)) = indexName p.
Proof.
  destruct (String.eqb_spec (indexName p) (currentKnowledgeBaseRef s)) as [Hsame | Hchange].
  - rewrite (scopeEffect_same_scope p s Hsame). symmetry. exact Hsame.
  - destruct (scopeEffect_change_cells p s Hchange) as (_ & _ & _ & _ & Hcur & _).
    exact Hcur.
Qed.

Lemma render_tracks_scope (p : Props) (m : Mounted) :
  settled m ->
  currentKnowledgeBaseRef (state (fst (step (Render p) m))) = indexName p.
Proof.
  intros (_ & _ & Hdeps). simpl.
  destruct (same_deps p (scopeDeps m)) eqn:Hsame; simpl.
  - unfold same_deps in Hsame.
    destruct (scopeDeps m) as [[i c] |]; [| discriminate].
    apply andb_true_iff in Hsame as [Hi _]. apply String.eqb_eq in Hi.
    rewrite Hi. exact (Hdeps i c eq_refl).
  - destruct ((if scopeCleanup m then scopeEffectCleanup else mret tt)
                (set_prevFileListRef (fileList (state m)) (state m)))
      as [[r1 s1] t1].
    pose proof (scopeEffect_tracks_scope p s1) as Hcur. unfold Js.heap in Hcur.
    destruct (scopeEffect p s1) as [[r2 s2] t2]. exact Hcur.
Qed.

(** X13. The handler of the render committed last is never discarded: after
    any history that ends with the commit of a render with props [p], the
    scope reference holds the scope of [p], so [handleChange] of that render
    applies the change and the file list becomes the list it was given. *)
Theorem latest_handler_is_applied
    (actions : list Action) (p : Props) (newFileList : list UploadFile) :
  let m := fst (run (actions ++ [Render p]) (mount [])) in
  currentKnowledgeBaseRef (state m) = indexName p
  /\ fileList (Js.heap (handleChange p newFileList (state m))) = newFileList.
Proof.
  intros m.
  assert (Hcur : currentKnowledgeBaseRef (state m) = indexName p).
  { subst m. rewrite run_app. cbn [fst].
    pose proof (run_settled actions (mount []) (mount_settled [])) as Hs.
    pose proof (render_tracks_scope p _ Hs) as Ht.
    cbn [run]. destruct (step (Render p) (fst (run actions (mount [])))) as [m1 t1].
    exact Ht. }
  split; [exact Hcur |].
  apply handleChange_applied_fileList. right. symmetry. exact Hcur.
Qed.

Lemma filter_live_nil_of_replicate (cs : list bool) :
  cs = replicate (length cs) true ->
  filter (fun aborted : bool => aborted = false) cs = [].
Proof. intros ->. apply filter_live_replicate. Qed.

(** X14. Unmounting leaves no request behind: after any history that ends
    with an unmount, every controller allocated so far is aborted and none is
    pending, and the component is back in its initial state. *)
Theorem unmount_aborts_pending (actions : list Action) :
  let m := fst (run (actions ++ [Unmount]) (mount [])) in
  live (state m) = []
  /\ pendingRequestRef (state m) = None
  /\ state m = initial (controllers (state m)).
Proof.
  intros m. subst m. rewrite run_app. cbn [fst run].
  destruct (run_invariant actions (mount []) mount_invariant) as [Hinv Hreg].
  set (m0 := fst (run actions (mount []))) in *.
  unfold step.
  assert (H1 : exists s1,
             (if scopeCleanup m0 then scopeEffectCleanup else mret tt) (state m0)
             = (Ret tt, s1, [])
             /\ controllers s1 = replicate (length (controllers s1)) true).
  { destruct (scopeCleanup m0) eqn:Hclean.
    - rewrite scopeEffectCleanup_run. eexists. split; [reflexivity |].
      pose proof (aborted_pending _ Hinv) as Hab.
      destruct (pendingRequestRef (state m0)) as [c |]; simpl.
      + rewrite Hab, length_replicate. reflexivity.
      + exact Hab.
    - exists (state m0). split; [reflexivity |].
      unfold pending_is_only_live in Hinv. rewrite (Hreg eq_refl) in Hinv.
      exact Hinv. }
  destruct H1 as (s1 & -> & Hcs). simpl.
  split; [| split; reflexivity].
  unfold live. simpl. apply filter_live_nil_of_replicate. exact Hcs.
Qed.

Lemma handleChange_trace (p : Props) (l : list UploadFile) (s : State) :
  Forall (fun ev => component_event ev = true) (Js.trace (handleChange p l s)).
Proof.
  component_unfold. simpl.
  destruct (isCreatingMode p || (indexName p =? currentKnowledgeBaseRef s)); simpl;
    [| constructor].
  destruct (existsb is_uploading (prevFileListRef s)
            && (Nat.ltb 0 (length l) && negb (existsb is_uploading l))); simpl;
    [destruct (onUpload p) as [[[] | e] |]; simpl |];
    try (destruct (Nat.ltb 0 (length (omap originFileObj l))); simpl);
    try (destruct (onFileSelect p (omap originFileObj l)); simpl);
    repeat constructor.
Qed.

Lemma scopeEffect_trace (p : Props) (s : State) :
  Forall (fun ev => component_event ev = true) (Js.trace (scopeEffect p s)).
Proof.
  destruct (String.eqb_spec (indexName p) (currentKnowledgeBaseRef s)) as [Hsame | Hchange].
  - rewrite (scopeEffect_same_scope p s Hsame). constructor.
  - rewrite (scopeEffect_change p s Hchange).
    destruct ((indexName p =? "") || isCreatingMode p); simpl; repeat constructor.
Qed.

Lemma step_trace (a : Action) (m : Mounted) :
  Forall (fun ev => component_event ev = true) (snd (step a m)).
Proof.
  destruct a as [p | p l |]; simpl.
  - destruct (same_deps p (scopeDeps m)); simpl; [constructor |].
    assert (H1 : exists s1,
               (if scopeCleanup m then scopeEffectCleanup else mret tt)
                 (set_prevFileListRef (fileList (state m)) (state m))
               = (Ret tt, s1, [])).
    { destruct (scopeCleanup m);
        [rewrite scopeEffectCleanup_run |]; eexists; reflexivity. }
    destruct H1 as (s1 & ->).
    pose proof (scopeEffect_trace p s1) as Ht. unfold Js.trace in Ht.
    destruct (scopeEffect p s1) as [[r2 s2] t2]. simpl in *. exact Ht.
  - pose proof (handleChange_trace p l (state m)) as Ht. unfold Js.trace in Ht.
    destruct (handleChange p l (state m)) as [[r1 s1] t1]. exact Ht.
  - assert (H1 : exists s1,
               (if scopeCleanup m then scopeEffectCleanup else mret tt) (state m)
               = (Ret tt, s1, [])).
    { destruct (scopeCleanup m);
        [rewrite scopeEffectCleanup_run |]; eexists; reflexivity. }
    destruct H1 as (s1 & ->). constructor.
Qed.

Lemma run_trace (actions : list Action) (m : Mounted) :
  Forall (fun ev => component_event ev = true) (snd (run actions m)).
Proof.
  revert m. induction actions as [| a rest IH]; intros m; simpl; [constructor |].
  pose proof (step_trace a m) as H1.
  destruct (step a m) as [m1 t1]. specialize (IH m1).
  destruct (run rest m1) as [m2 t2]. simpl in *.
  apply Forall_app. split; assumption.
Qed.

Lemma count_zero_of_component_events (kind : Event -> bool) (t : list Event) :
  (forall ev, component_event ev = true -> kind ev = false) ->
  Forall (fun ev => component_event ev = true) t ->
  count kind t = 0.
Proof.
  intros Hkind Ht. unfold count.
  induction Ht as [| ev t Hev _ IH]; simpl; [reflexivity |].
  rewrite (Hkind ev Hev). exact IH.
Qed.

(** X15. The scope effect, its cleanup, the file-list effect and
    [handleChange] are silent and offline: over every history of their runs
    (commits, file-list changes and unmounts), from any mounted state, they
    show no error notification, never reach the failure callback of the
    resolution and make no network call; all they do to the outside is call
    the resolution's success callback and the parent's two callbacks.  The
    name-existence effect, which alone goes to the network, is not among
    them. *)
Theorem scope_hooks_show_no_error (actions : list Action) (m : Mounted) :
  let t := snd (run actions m) in
  count is_MessageError t = 0
  /\ count is_InfoError t = 0
  /\ count is_network t = 0
  /\ Forall (fun ev => component_event ev = true) t.
Proof.
  intros t. pose proof (run_trace actions m) as Ht. fold t in Ht.
  repeat split; try exact Ht;
    (apply count_zero_of_component_events; [| exact Ht]);
    intros [] Hev; try discriminate; reflexivity.
Qed.

(** X16. What an applied change tells the parent: when [handleChange] applies
    the change and the upload-complete callback, if called, returns normally,
    the file list becomes the new list, and the parent hears, in this order,
    of the completed upload (if the transition completes one and the callback
    was supplied) and of the selected files: one call of [onFileSelect] with
    the raw files of the entries that carry one, in the order of the list,
    and no call when no entry carries one. *)
Theorem handleChange_tells_parent
    (p : Props) (s : State) (newFileList : list UploadFile) :
  isCreatingMode p = true \/ indexName p = currentKnowledgeBaseRef s ->
  (forall e, onUpload p <> Some (Throw e)) ->
  Js.trace (handleChange p newFileList s)
  = change_events p (prevFileListRef s) newFileList
  /\ Js.heap (handleChange p newFileList s) = setFileList newFileList s.
Proof.
  intros Happlied Hquiet.
  assert (Hguard : isCreatingMode p || (indexName p =? currentKnowledgeBaseRef s) = true).
  { destruct Happlied as [-> | ->]; [reflexivity |].
    rewrite String.eqb_refl. apply orb_true_r. }
  unfold change_events, completes_upload.
  component_unfold. simpl. rewrite Hguard. simpl.
  destruct (existsb is_uploading (prevFileListRef s)
            && (Nat.ltb 0 (length newFileList)
                && negb (existsb is_uploading newFileList))); simpl.
  - destruct (onUpload p) as [[[] | e] |] eqn:Hup; simpl;
      try (exfalso; exact (Hquiet e eq_refl));
      destruct (omap originFileObj newFileList) as [| f files]; simpl;
      try (split; reflexivity);
      destruct (onFileSelect p (f :: files)); split; reflexivity.
  - destruct (omap originFileObj newFileList) as [| f files]; simpl;
      try (split; reflexivity);
      destruct (onFileSelect p (f :: files)); split; reflexivity.
Qed.

Lemma handleChange_tells_parent_witness :
  let p := Scenario.props false "kb-a" in
  let s := set_prevFileListRef [Scenario.entry st_uploading]
             (set_currentKnowledgeBaseRef "kb-a" (initial [])) in
  let new := [Scenario.entry st_done; mkUploadFile "rc-upload-2" (Some st_done) None] in
  (isCreatingMode p = true \/ indexName p = currentKnowledgeBaseRef s)
  /\ Js.trace (handleChange p new s)
     = [ParentOnUpload; ParentOnFileSelect [Scenario.report_pdf]].
Proof.
  intros p s new.
  assert (Happlied : isCreatingMode p = true \/ indexName p = currentKnowledgeBaseRef s)
    by (right; reflexivity).
  split; [exact Happlied |].
  refine (proj1 (handleChange_tells_parent p s new Happlied _)).
  intros e. discriminate.
Defined.

Lemma handleChange_upload_complete_count
    (p : Props) (s : State) (l : list UploadFile) (cb : Res unit) :
  isCreatingMode p = true \/ indexName p = currentKnowledgeBaseRef s ->
  onUpload p = Some cb ->
  count is_ParentOnUpload (Js.trace (handleChange p l s))
  = if completes_upload (prevFileListRef s) l then 1 else 0.
Proof.
  intros Happlied Hcb.
  assert (Hguard : isCreatingMode p || (indexName p =? currentKnowledgeBaseRef s) = true).
  { destruct Happlied as [-> | ->]; [reflexivity |].
    rewrite String.eqb_refl. apply orb_true_r. }
  component_unfold. simpl. rewrite Hguard. simpl.
  unfold completes_upload.
  destruct (existsb is_uploading (prevFileListRef s)
            && (Nat.ltb 0 (length l) && negb (existsb is_uploading l))); simpl.
  - rewrite Hcb. simpl. destruct cb as [[] | e]; simpl; [| reflexivity].
    destruct (Nat.ltb 0 (length (omap originFileObj l))); simpl; [| reflexivity].
    destruct (onFileSelect p (omap originFileObj l)); reflexivity.
  - destruct (Nat.ltb 0 (length (omap originFileObj l))); simpl; [| reflexivity].
    destruct (onFileSelect p (omap originFileObj l)); reflexivity.
Qed.

Lemma completes_upload_irreflexive (l : list UploadFile) :
  completes_upload l l = false.
Proof.
  unfold completes_upload. destruct (existsb is_uploading l); simpl;
    [apply andb_false_r | reflexivity].
Qed.

(** X17. Completion is detected between consecutive lists: if the handler
    applies a change to list [l1], the commit that follows records it, and
    the handler is then given [l2], the upload-complete callback fires exactly
    when [l1] held an uploading entry and [l2] is non-empty with none; so a
    list delivered twice in a row never fires it the second time. *)
Theorem completion_between_consecutive_changes
    (p : Props) (s : State) (l1 l2 : list UploadFile) (cb : Res unit) :
  isCreatingMode p = true \/ indexName p = currentKnowledgeBaseRef s ->
  onUpload p = Some cb ->
  let s1 := Js.heap (prevFileListEffect (Js.heap (handleChange p l1 s))) in
  count is_ParentOnUpload (Js.trace (handleChange p l2 s1))
  = (if completes_upload l1 l2 then 1 else 0)
  /\ count is_ParentOnUpload
       (Js.trace (handleChange p l1 s1)) = 0.
Proof.
  intros Happlied Hcb s1.
  pose proof (handleChange_applied_fileList p l1 s Happlied) as Hlist.
  pose proof (handleChange_flags p l1 s) as (_ & _ & Hcur & _).
  assert (Hprev : prevFileListRef s1 = l1).
  { subst s1. unfold prevFileListEffect. js_unfold. simpl. exact Hlist. }
  assert (Hcur1 : currentKnowledgeBaseRef s1 = currentKnowledgeBaseRef s).
  { subst s1. unfold prevFileListEffect. js_unfold. simpl. exact Hcur. }
  assert (Happlied1 : isCreatingMode p = true \/ indexName p = currentKnowledgeBaseRef s1).
  { rewrite Hcur1. exact Happlied. }
  split.
  - rewrite (handleChange_upload_complete_count p s1 l2 cb Happlied1 Hcb).
    rewrite Hprev. reflexivity.
  - rewrite (handleChange_upload_complete_count p s1 l1 cb Happlied1 Hcb).
    rewrite Hprev, completes_upload_irreflexive. reflexivity.
Qed.

Lemma completion_between_consecutive_changes_witness :
  let p := Scenario.props false "kb-a" in
  let s := set_currentKnowledgeBaseRef "kb-a" (initial []) in
  let s1 := Js.heap (prevFileListEffect
                       (Js.heap (handleChange p [Scenario.entry st_uploading] s))) in
  (isCreatingMode p = true \/ indexName p = currentKnowledgeBaseRef s)
  /\ onUpload p = Some (Ret tt)
  /\ count is_ParentOnUpload
       (Js.trace (handleChange p [Scenario.entry st_done] s1)) = 1.
Proof.
  intros p s s1.
  assert (Happlied : isCreatingMode p = true \/ indexName p = currentKnowledgeBaseRef s)
    by (right; reflexivity).
  split; [exact Happlied |]. split; [reflexivity |].
  exact (proj1 (completion_between_consecutive_changes p s
                  [Scenario.entry st_uploading] [Scenario.entry st_done] (Ret tt)
                  Happlied eq_refl)).
Defined.

(** * The name-existence effect *)

Section NameCheckFacts.
Import NameCheck.
Variable service : string -> Ext Hooks bool.

Ltac name_unfold :=
  cbv beta delta [nameCheckEffect checkName new_isActive nameCheckCleanup] in *;
  js_unfold.

(** X18. The name-existence effect goes to the service only for a name being
    created: outside creating-mode, or with an empty name, it clears the
    name-exists flag at once, calls nothing and returns no cleanup function;
    otherwise it makes exactly one call of the service. *)
Theorem nameCheckEffect_service_calls (p : Props) (k : Hooks) :
  let r := nameCheckEffect service p k in
  count is_network (Js.trace r)
  = (if isCreatingMode p && negb (newKnowledgeBaseName p =? "") then 1 else 0)
  /\ (isCreatingMode p = false \/ newKnowledgeBaseName p = "" ->
      r = (Ret None, in_area (setNameExists false) k, [])).
Proof.
  intros r. subst r. split.
  - name_unfold. simpl.
    destruct (isCreatingMode p); simpl; [| reflexivity].
    destruct (newKnowledgeBaseName p =? ""); simpl; [reflexivity |].
    repeat js_step; reflexivity.
  - intros Hidle.
    assert (Htest : negb (isCreatingMode p) || (newKnowledgeBaseName p =? "") = true).
    { destruct Hidle as [-> | ->]; [reflexivity | apply orb_true_r]. }
    name_unfold. simpl. rewrite Htest. reflexivity.
Qed.

(** The run of the effect for a name being created, given how the service
    call settles. *)
Lemma nameCheckEffect_run (p : Props) (k k1 : Hooks) (r : Res bool) :
  isCreatingMode p = true ->
  newKnowledgeBaseName p <> "" ->
  service (newKnowledgeBaseName p) (mkHooks (area k) (isActive k ++ [true])) = (r, k1) ->
  nameCheckEffect service p k
  = (Ret (Some (length (isActive k))),
     (if read_isActive (length (isActive k)) k1
      then in_area (setNameExists (match r with Ret b => b | Throw _ => false end)) k1
      else k1),
     NameCheck (newKnowledgeBaseName p)
       :: (match r with
           | Ret _ => []
           | Throw _ => [ConsoleError "检查知识库名称失败:"]
           end)).
Proof.
  intros Hmode Hname Hcall.
  name_unfold. simpl. rewrite Hmode, (eqb_false_of_neq _ _ Hname). simpl.
  rewrite Hcall. destruct r as [b | e]; simpl;
    destruct (read_isActive (length (isActive k)) k1); reflexivity.
Qed.

(** X19. An answer that arrives while the run of the effect is still active
    is applied, and a failure of the service reads as a free name: the
    name-exists flag becomes the service's answer, or [false] when the service
    threw, and nothing else in the component changes. *)
Theorem nameCheckEffect_applies_answer (p : Props) (k k1 : Hooks) (r : Res bool) :
  isCreatingMode p = true ->
  newKnowledgeBaseName p <> "" ->
  service (newKnowledgeBaseName p) (mkHooks (area k) (isActive k ++ [true])) = (r, k1) ->
  read_isActive (length (isActive k)) k1 = true ->
  Js.heap (nameCheckEffect service p k)
  = in_area (setNameExists (match r with Ret b => b | Throw _ => false end)) k1
  /\ Js.result (nameCheckEffect service p k) = Ret (Some (length (isActive k))).
Proof.
  intros Hmode Hname Hcall Hactive.
  rewrite (nameCheckEffect_run p k k1 r Hmode Hname Hcall). simpl.
  rewrite Hactive. split; reflexivity.
Qed.

(** X20. An answer that arrives after the run of the effect was cleaned up is
    discarded: if [isActive] of the run is off when the service call settles,
    whether with an answer or with a failure, the completion writes nothing,
    so the name-exists flag stays as the newer run left it. *)
Theorem nameCheckEffect_discards_superseded (p : Props) (k k1 : Hooks) (r : Res bool) :
  isCreatingMode p = true ->
  newKnowledgeBaseName p <> "" ->
  service (newKnowledgeBaseName p) (mkHooks (area k) (isActive k ++ [true])) = (r, k1) ->
  read_isActive (length (isActive k)) k1 = false ->
  Js.heap (nameCheckEffect service p k) = k1.
Proof.
  intros Hmode Hname Hcall Hstale.
  rewrite (nameCheckEffect_run p k k1 r Hmode Hname Hcall). simpl.
  rewrite Hstale. reflexivity.
Qed.

(** The cleanup function switches the run's [isActive] off. *)
Lemma nameCheckCleanup_clears (cell : nat) (k : Hooks) :
  cell < length (isActive k) ->
  read_isActive cell (Js.heap (nameCheckCleanup cell k)) = false.
Proof.
  intros Hcell. unfold read_isActive. name_unfold. simpl.
  rewrite list_lookup_insert_eq by exact Hcell. reflexivity.
Qed.

End NameCheckFacts.

Lemma nameCheckEffect_service_calls_witness :
  let k := NameCheck.mkHooks (setNameExists true (initial [])) [] in
  let p := Scenario.props false "kb-a" in
  (isCreatingMode p = false \/ newKnowledgeBaseName p = "")
  /\ NameCheck.nameCheckEffect (Scenario2.name_service (Ret true)) p k
     = (Ret None, NameCheck.mkHooks (initial []) [], []).
Proof.
  intros k p.
  assert (Hidle : isCreatingMode p = false \/ newKnowledgeBaseName p = "")
    by (left; reflexivity).
  split; [exact Hidle |].
  exact (proj2 (nameCheckEffect_service_calls
                  (Scenario2.name_service (Ret true)) p k) Hidle).
Defined.

Lemma nameCheckEffect_applies_answer_witness :
  let k := NameCheck.mkHooks (initial []) [] in
  let p := Scenario2.creating "docs" in
  let service := Scenario2.name_service (Throw Scenario.network_error) in
  isCreatingMode p = true
  /\ newKnowledgeBaseName p <> ""
  /\ nameExists (NameCheck.area (Js.heap (NameCheck.nameCheckEffect service p k))) = false.
Proof.
  intros k p service.
  assert (Hname : newKnowledgeBaseName p <> "") by (vm_compute; discriminate).
  split; [reflexivity |]. split; [exact Hname |].
  rewrite (proj1 (nameCheckEffect_applies_answer service p k
                    (NameCheck.mkHooks (initial []) [true])
                    (Throw Scenario.network_error)
                    eq_refl Hname eq_refl eq_refl)).
  reflexivity.
Defined.

Lemma nameCheckEffect_discards_superseded_witness :
  let k := NameCheck.mkHooks (initial []) [] in
  let p := Scenario2.creating "docs" in
  let service := Scenario2.name_service_superseded (Ret true) 0 in
  isCreatingMode p = true
  /\ newKnowledgeBaseName p <> ""
  /\ NameCheck.read_isActive 0 (NameCheck.mkHooks (initial []) [false]) = false
  /\ nameExists (NameCheck.area (Js.heap (NameCheck.nameCheckEffect service p k))) = false.
Proof.
  intros k p service.
  assert (Hname : newKnowledgeBaseName p <> "") by (vm_compute; discriminate).
  split; [reflexivity |]. split; [exact Hname |]. split; [reflexivity |].
  rewrite (nameCheckEffect_discards_superseded service p k
             (NameCheck.mkHooks (initial []) [false]) (Ret true)
             eq_refl Hname eq_refl eq_refl).
  reflexivity.
Defined.

(** * The tool-configuration modal *)

Section ModalFacts.
Import ToolConfigModal.
Variable parseInt : string -> Num.
Variable searchToolConfig : Num -> Z -> Ext Modal SearchResult.
Variable updateToolConfig : Num -> Z -> JsObject -> bool -> Ext Modal UpdateResult.

Ltac t_unfold :=
  cbv beta delta
    [loadToolConfig loadEffect checkRequiredFields handleSave
     t_call t_emit t_callback t_floating t_try_catch t_finally
     setCurrentParams setIsLoading mbind T_bind t_bind mret T_ret t_ret
     t_result t_state t_events] in *.

Lemma with_value_same (param : ToolParam) : with_value (value param) param = param.
Proof. destruct param. reflexivity. Qed.

Lemma defaultParams_initParams (tool : Tool) : defaultParams tool = initParams tool.
Proof.
  unfold defaultParams. induction (initParams tool) as [| param l IH]; simpl;
    [reflexivity | rewrite with_value_same, IH; reflexivity].
Qed.

Lemma savedParams_shape (tool : Tool) (saved : JsObject) :
  map shape (savedParams tool saved) = map shape (initParams tool).
Proof.
  unfold savedParams. induction (initParams tool) as [| param l IH]; simpl;
    [reflexivity | rewrite IH; reflexivity].
Qed.

(** X21. Loading never changes which parameters a tool has, and never leaves
    the modal loading: for a tool and a non-zero agent id, however the search
    service settles (saved configuration, none, a refusal or an exception),
    [loadToolConfig] returns normally, the loading flag is off, and the
    current parameters have the names, types, required flags and descriptions
    of the tool's own parameters, in the same order. *)
Theorem loadToolConfig_keeps_shape (tool : Tool) (mainAgentId : Z) (h : Modal) :
  mainAgentId <> 0%Z ->
  let r := loadToolConfig parseInt searchToolConfig (Some tool) mainAgentId h in
  t_result r = Ret tt
  /\ isLoading (t_state r) = false
  /\ map shape (currentParams (t_state r)) = map shape (initParams tool)
  /\ t_count is_error_message (t_events r) <= 1.
Proof.
  intros Hid r. subst r.
  assert (Hz : Z.eqb mainAgentId 0 = false) by (apply Z.eqb_neq; exact Hid).
  t_unfold. simpl. rewrite Hz. simpl.
  destruct (searchToolConfig (parseInt (id tool)) mainAgentId
              (mkModal (currentParams h) true)) as [[result | e] h1]; simpl.
  - destruct (search_success result); simpl.
    + destruct (data_params result) as [saved |]; simpl;
        rewrite ?savedParams_shape, ?defaultParams_initParams;
        repeat split; unfold t_count; simpl; lia.
    + rewrite defaultParams_initParams. repeat split; unfold t_count; simpl; lia.
  - rewrite defaultParams_initParams. repeat split; unfold t_count; simpl; lia.
Qed.

(** X22. A saved configuration is laid over the defaults by name: when the
    search succeeds with saved parameters, a plain object, no message is shown
    and each current parameter takes what reading the saved object under its
    name gives, if that is not [undefined] (a saved [null] included, and so is
    what the object inherits under a name such as [constructor]), and keeps
    its default value otherwise. *)
Theorem loadToolConfig_uses_saved_values
    (tool : Tool) (mainAgentId : Z) (h h1 : Modal)
    (result : SearchResult) (saved : JsObject) :
  mainAgentId <> 0%Z ->
  searchToolConfig (parseInt (id tool)) mainAgentId (mkModal (currentParams h) true)
  = (Ret result, h1) ->
  search_success result = true ->
  data_params result = Some saved ->
  let r := loadToolConfig parseInt searchToolConfig (Some tool) mainAgentId h in
  t_events r = [SearchToolConfig (parseInt (id tool)) mainAgentId]
  /\ Forall2 (fun default current =>
                value current
                = match obj_get saved (name default) with
                  | VUndefined => value default
                  | v => v
                  end)
             (initParams tool) (currentParams (t_state r)).
Proof.
  intros Hid Hcall Hok Hdata r. subst r.
  assert (Hz : Z.eqb mainAgentId 0 = false) by (apply Z.eqb_neq; exact Hid).
  t_unfold. simpl. rewrite Hz. simpl. rewrite Hcall. simpl.
  rewrite Hok. simpl. rewrite Hdata. simpl. split; [reflexivity |].
  unfold savedParams. induction (initParams tool) as [| param l IH]; simpl;
    constructor; [| exact IH].
  simpl. destruct (obj_get saved (name param)); reflexivity.
Qed.

(** X23. A failed load falls back to the defaults and says so once: when the
    search is refused or throws, the current parameters are exactly the
    tool's own parameters with their default values, exactly one error
    message is shown, and the loading flag is off. *)
Theorem loadToolConfig_falls_back
    (tool : Tool) (mainAgentId : Z) (h h1 : Modal) (outcome : Res SearchResult) :
  mainAgentId <> 0%Z ->
  searchToolConfig (parseInt (id tool)) mainAgentId (mkModal (currentParams h) true)
  = (outcome, h1) ->
  match outcome with
  | Ret result => search_success result = false
  | Throw _ => True
  end ->
  let r := loadToolConfig parseInt searchToolConfig (Some tool) mainAgentId h in
  t_state r = mkModal (initParams tool) false
  /\ t_count is_error_message (t_events r) = 1
  /\ t_result r = Ret tt.
Proof.
  intros Hid Hcall Hfail r. subst r.
  assert (Hz : Z.eqb mainAgentId 0 = false) by (apply Z.eqb_neq; exact Hid).
  t_unfold. simpl. rewrite Hz. simpl. rewrite Hcall.
  destruct outcome as [result | e]; simpl.
  - rewrite Hfail. simpl. rewrite defaultParams_initParams. repeat split.
  - rewrite defaultParams_initParams. repeat split.
Qed.

(** The blank required parameters, as a property of the list. *)
Lemma missingRequiredFields_nil (params : list ToolParam) :
  missingRequiredFields params = []
  <-> Forall (fun param => required param = true -> is_blank (value param) = false)
             params.
Proof.
  unfold missingRequiredFields. induction params as [| param l IH]; simpl.
  - split; [constructor | reflexivity].
  - destruct (required param) eqn:Hreq; simpl.
    + destruct (is_blank (value param)) eqn:Hblank; simpl.
      * split; [discriminate |]. intros Hall.
        apply Forall_cons in Hall as [Hp _]. specialize (Hp Hreq).
        rewrite Hp in Hblank. discriminate.
      * rewrite IH. split.
        -- intros Hl. constructor; [intros _; exact Hblank | exact Hl].
        -- intros Hall. apply Forall_cons in Hall as [_ Hl]. exact Hl.
    + rewrite IH. split.
      * intros Hl. constructor; [| exact Hl].
        intros Htrue. rewrite Htrue in Hreq. discriminate.
      * intros Hall. apply Forall_cons in Hall as [_ Hl]. exact Hl.
Qed.

Lemma missingRequiredFields_In (params : list ToolParam) (param : ToolParam) :
  In param params -> required param = true -> is_blank (value param) = true ->
  In (name param) (missingRequiredFields params).
Proof.
  intros Hin Hreq Hblank. unfold missingRequiredFields.
  apply in_map. apply filter_In. split; [exact Hin |].
  rewrite Hreq, Hblank. reflexivity.
Qed.

(** X24. Saving is blocked by a blank required parameter: if some current
    parameter is required and its value is [undefined], [null] or the empty
    string, [handleSave] shows one error message, which names that parameter,
    and does nothing else: the update service is not called, the parent's
    [onSave] is not called and the state is untouched. *)
Theorem handleSave_blocked_by_blank_required
    (tool : Tool) (selectedTools : list Tool) (mainAgentId : Z)
    (onSave : Tool -> Res unit) (h : Modal) (param : ToolParam) :
  In param (currentParams h) ->
  required param = true ->
  is_blank (value param) = true ->
  In (name param) (missingRequiredFields (currentParams h))
  /\ handleSave parseInt updateToolConfig (Some tool) selectedTools mainAgentId onSave h
     = (Ret tt, h,
        [Message_error
           ("以下必填字段未填写: "
            ++ String.concat ", " (missingRequiredFields (currentParams h)))]).
Proof.
  intros Hin Hreq Hblank.
  pose proof (missingRequiredFields_In _ _ Hin Hreq Hblank) as Hmissing.
  split; [exact Hmissing |].
  t_unfold. simpl.
  destruct (missingRequiredFields (currentParams h)) as [| n l]; [contradiction |].
  reflexivity.
Qed.









(** X26. A successful save: with no required parameter left blank, an update
    that the backend accepts and a parent callback that returns normally,
    [handleSave] calls the update service once, with the object built from the
    parameters as they were when saving started and with the tool enabled
    exactly when it is among the selected tools, then shows the success
    message, then hands the parent the tool carrying those parameters. *)
Theorem handleSave_success
    (tool : Tool) (selectedTools : list Tool) (mainAgentId : Z)
    (onSave : Tool -> Res unit) (h h1 : Modal) (result : UpdateResult) :
  let isEnabled := existsb (fun t => id t =? id tool) selectedTools in
  let saved := with_initParams (currentParams h) tool in
  Forall (fun param => required param = true -> is_blank (value param) = false)
         (currentParams h) ->
  updateToolConfig (parseInt (id tool)) mainAgentId
                   (paramsObject (currentParams h)) isEnabled h
  = (Ret result, h1) ->
  update_success result = true ->
  onSave saved = Ret tt ->
  handleSave parseInt updateToolConfig (Some tool) selectedTools mainAgentId onSave h
  = (Ret tt, h1,
     [UpdateToolConfig (parseInt (id tool)) mainAgentId
                       (paramsObject (currentParams h)) isEnabled;
      Message_success "工具配置保存成功";
      OnSave saved])
  /\ (isEnabled = true <-> exists t, In t selectedTools /\ id t = id tool).
Proof.
  intros isEnabled saved Hfilled Hcall Hok Hcb. subst isEnabled saved. split.
  - apply missingRequiredFields_nil in Hfilled.
    t_unfold. simpl. rewrite Hfilled. simpl. rewrite Hcall. simpl.
    rewrite Hok. simpl. rewrite Hcb. reflexivity.
  - rewrite existsb_exists. split; intros (t & Hin & Hid); exists t;
      (split; [exact Hin |]); apply String.eqb_eq; exact Hid.
Qed.

(** X27. Saving never fails upwards and never goes unanswered: for every
    input [handleSave] returns normally; it calls the update service at most
    once and the parent's [onSave] only after such a call; and whenever a tool
    is open it shows at least one message. *)
Theorem handleSave_settles
    (tool : option Tool) (selectedTools : list Tool) (mainAgentId : Z)
    (onSave : Tool -> Res unit) (h : Modal) :
  let r := handleSave parseInt updateToolConfig tool selectedTools mainAgentId
                      onSave h in
  t_result r = Ret tt
  /\ t_count is_update (t_events r) <= 1
  /\ t_count is_save (t_events r) <= t_count is_update (t_events r)
  /\ (tool <> None -> 1 <= t_count is_notification (t_events r)).
Proof.
  intros r. subst r. destruct tool as [tool |].
  - t_unfold. simpl.
    destruct (Nat.ltb 0 (length (missingRequiredFields (currentParams h)))); simpl.
    + unfold t_count. simpl. repeat split; lia.
    + destruct (updateToolConfig _ _ _ _ h) as [[result | e] h1]; simpl.
      * destruct (update_success result); simpl.
        -- destruct (onSave _) as [[] | e]; simpl;
             unfold t_count; simpl; repeat split; lia.
        -- unfold t_count. simpl. repeat split; lia.
      * unfold t_count. simpl. repeat split; lia.
  - t_unfold. simpl. unfold t_count. simpl. repeat split; try lia.
    intros Hne. contradiction.
Qed.

End ModalFacts.

Lemma loadToolConfig_keeps_shape_witness :
  let search := fun (_ : ToolConfigModal.Num) (_ : Z) (h : ToolConfigModal.Modal) =>
                  (@Throw ToolConfigModal.SearchResult Scenario.network_error, h) in
  let r := ToolConfigModal.loadToolConfig (fun _ => Some 7%Z) search
             (Some ToolConfigModal.search_tool) 3%Z
             (ToolConfigModal.mkModal [] false) in
  3%Z <> 0%Z
  /\ ToolConfigModal.isLoading (ToolConfigModal.t_state r) = false
  /\ map ToolConfigModal.shape (ToolConfigModal.currentParams (ToolConfigModal.t_state r))
     = map ToolConfigModal.shape (ToolConfigModal.initParams ToolConfigModal.search_tool).
Proof.
  intros search r.
  assert (Hid : 3%Z <> 0%Z) by discriminate.
  split; [exact Hid |].
  destruct (loadToolConfig_keeps_shape (fun _ => Some 7%Z) search
              ToolConfigModal.search_tool 3%Z (ToolConfigModal.mkModal [] false) Hid)
    as (_ & Hload & Hshape & _).
  split; assumption.
Defined.

Lemma loadToolConfig_uses_saved_values_witness :
  let saved := [("api_key", ToolConfigModal.VString "k-123");
                ("top_k", ToolConfigModal.VNull)] in
  let result := ToolConfigModal.mkSearchResult true None (Some (Some saved)) in
  let search := fun (_ : ToolConfigModal.Num) (_ : Z) (h : ToolConfigModal.Modal) =>
                  (Ret result, h) in
  let r := ToolConfigModal.loadToolConfig (fun _ => Some 7%Z) search
             (Some ToolConfigModal.search_tool) 3%Z
             (ToolConfigModal.mkModal [] false) in
  3%Z <> 0%Z
  /\ ToolConfigModal.search_success result = true
  /\ ToolConfigModal.data_params result = Some saved
  /\ ToolConfigModal.t_events r = [ToolConfigModal.SearchToolConfig (Some 7%Z) 3%Z].
Proof.
  intros saved result search r.
  assert (Hid : 3%Z <> 0%Z) by discriminate.
  split; [exact Hid |]. split; [reflexivity |]. split; [reflexivity |].
  exact (proj1 (loadToolConfig_uses_saved_values (fun _ => Some 7%Z) search
                  ToolConfigModal.search_tool 3%Z (ToolConfigModal.mkModal [] false)
                  (ToolConfigModal.mkModal [] true) result saved
                  Hid eq_refl eq_refl eq_refl)).
Defined.

Lemma loadToolConfig_falls_back_witness :
  let search := fun (_ : ToolConfigModal.Num) (_ : Z) (h : ToolConfigModal.Modal) =>
                  (@Throw ToolConfigModal.SearchResult Scenario.network_error, h) in
  let r := ToolConfigModal.loadToolConfig (fun _ => Some 7%Z) search
             (Some ToolConfigModal.search_tool) 3%Z
             (ToolConfigModal.mkModal [] false) in
  3%Z <> 0%Z
  /\ ToolConfigModal.t_state r
     = ToolConfigModal.mkModal (ToolConfigModal.initParams ToolConfigModal.search_tool)
                               false.
Proof.
  intros search r.
  assert (Hid : 3%Z <> 0%Z) by discriminate.
  split; [exact Hid |].
  exact (proj1 (loadToolConfig_falls_back (fun _ => Some 7%Z) search
                  ToolConfigModal.search_tool 3%Z (ToolConfigModal.mkModal [] false)
                  (ToolConfigModal.mkModal [] true) (Throw Scenario.network_error)
                  Hid eq_refl I)).
Defined.

Lemma handleSave_blocked_by_blank_required_witness :
  let h := ToolConfigModal.mkModal
             (ToolConfigModal.initParams ToolConfigModal.search_tool) false in
  let param := ToolConfigModal.mkParam "api_key" "string" true
                 (ToolConfigModal.VString "") None in
  let update := fun (_ : ToolConfigModal.Num) (_ : Z) (_ : ToolConfigModal.JsObject)
                    (_ : bool) (h : ToolConfigModal.Modal) =>
                  (Ret (ToolConfigModal.mkUpdateResult true None), h) in
  In param (ToolConfigModal.currentParams h)
  /\ ToolConfigModal.required param = true
  /\ ToolConfigModal.is_blank (ToolConfigModal.value param) = true
  /\ ToolConfigModal.handleSave (fun _ => Some 7%Z) update
       (Some ToolConfigModal.search_tool) [] 3%Z (fun _ => Ret tt) h
     = (Ret tt, h, [ToolConfigModal.Message_error "以下必填字段未填写: api_key"]).
Proof.
  intros h param update.
  assert (Hin : In param (ToolConfigModal.currentParams h)) by (left; reflexivity).
  split; [exact Hin |]. split; [reflexivity |]. split; [reflexivity |].
  exact (proj2 (handleSave_blocked_by_blank_required (fun _ => Some 7%Z) update
                  ToolConfigModal.search_tool [] 3%Z (fun _ => Ret tt) h param
                  Hin eq_refl eq_refl)).
Defined.


Lemma handleSave_success_witness :
  let params := [ToolConfigModal.mkParam "api_key" "string" true
                   (ToolConfigModal.VString "k-123") None;
                 ToolConfigModal.mkParam "top_k" "number" true
                   (ToolConfigModal.VNumber 0) None] in
  let h := ToolConfigModal.mkModal params false in
  let update := fun (_ : ToolConfigModal.Num) (_ : Z) (_ : ToolConfigModal.JsObject)
                    (_ : bool) (h : ToolConfigModal.Modal) =>
                  (Ret (ToolConfigModal.mkUpdateResult true None), h) in
  Forall (fun param => ToolConfigModal.required param = true ->
                       ToolConfigModal.is_blank (ToolConfigModal.value param) = false)
         params
  /\ ToolConfigModal.handleSave (fun _ => Some 7%Z) update
       (Some ToolConfigModal.search_tool) [ToolConfigModal.search_tool] 3%Z
       (fun _ => Ret tt) h
     = (Ret tt, h,
        [ToolConfigModal.UpdateToolConfig (Some 7%Z) 3%Z
           [("api_key", ToolConfigModal.VString "k-123");
            ("top_k", ToolConfigModal.VNumber 0)] true;
         ToolConfigModal.Message_success "工具配置保存成功";
         ToolConfigModal.OnSave
           (ToolConfigModal.with_initParams params ToolConfigModal.search_tool)]).
Proof.
  intros params h update.
  assert (Hfilled : Forall (fun param => ToolConfigModal.required param = true ->
                              ToolConfigModal.is_blank (ToolConfigModal.value param) = false)
                           params).
  { repeat constructor. }
  split; [exact Hfilled |].
  exact (proj1 (handleSave_success (fun _ => Some 7%Z) update
                  ToolConfigModal.search_tool [ToolConfigModal.search_tool] 3%Z
                  (fun _ => Ret tt) h h (ToolConfigModal.mkUpdateResult true None)
                  Hfilled eq_refl eq_refl eq_refl)).
Defined.

Lemma handleSave_settles_witness :
  let update := fun (_ : ToolConfigModal.Num) (_ : Z) (_ : ToolConfigModal.JsObject)
                    (_ : bool) (h : ToolConfigModal.Modal) =>
                  (@Throw ToolConfigModal.UpdateResult Scenario.network_error, h) in
  let r := ToolConfigModal.handleSave (fun _ => Some 7%Z) update
             (Some ToolConfigModal.search_tool) [] 3%Z (fun _ => Ret tt)
             (ToolConfigModal.mkModal [] false) in
  Some ToolConfigModal.search_tool <> None
  /\ ToolConfigModal.t_result r = Ret tt
  /\ 1 <= ToolConfigModal.t_count ToolConfigModal.is_notification
            (ToolConfigModal.t_events r).
Proof.
  intros update r.
  assert (Hsome : Some ToolConfigModal.search_tool <> None) by discriminate.
  destruct (handleSave_settles (fun _ => Some 7%Z) update
              (Some ToolConfigModal.search_tool) [] 3%Z (fun _ => Ret tt)
              (ToolConfigModal.mkModal [] false)) as (Hres & _ & _ & Hnote).
  split; [exact Hsome |]. split; [exact Hres | exact (Hnote Hsome)].
Defined.

(** X28. The load effect goes to the backend only for an open modal with a
    tool and a non-zero agent id, and then exactly once; in every other case
    (modal closed, no tool, agent id 0) it empties the current parameters
    without any call.  The effect itself never throws. *)
Theorem loadEffect_search_calls
    (parseInt : string -> ToolConfigModal.Num)
    (searchToolConfig : ToolConfigModal.Num -> Z ->
                        Ext ToolConfigModal.Modal ToolConfigModal.SearchResult)
    (isOpen : bool) (tool : option ToolConfigModal.Tool) (mainAgentId : Z)
    (h : ToolConfigModal.Modal) :
  let r := ToolConfigModal.loadEffect parseInt searchToolConfig isOpen tool
             mainAgentId h in
  let active := isOpen && negb (Z.eqb mainAgentId 0)
                && match tool with Some _ => true | None => false end in
  ToolConfigModal.t_result r = Ret tt
  /\ ToolConfigModal.t_count ToolConfigModal.is_search (ToolConfigModal.t_events r)
     = (if active then 1 else 0)
  /\ (active = false ->
      r = (Ret tt, ToolConfigModal.mkModal [] (ToolConfigModal.isLoading h), [])).
Proof.
  intros r active. subst r active.
  destruct tool as [tool |];
    [| destruct isOpen; simpl; rewrite ?andb_false_r; repeat split].
  destruct isOpen; simpl; [| repeat split].
  cbv beta delta
    [ToolConfigModal.loadEffect ToolConfigModal.loadToolConfig
     ToolConfigModal.t_call ToolConfigModal.t_emit ToolConfigModal.t_floating
     ToolConfigModal.t_try_catch ToolConfigModal.t_finally
     ToolConfigModal.setCurrentParams ToolConfigModal.setIsLoading
     mbind ToolConfigModal.T_bind ToolConfigModal.t_bind
     mret ToolConfigModal.T_ret ToolConfigModal.t_ret
     ToolConfigModal.t_result ToolConfigModal.t_state ToolConfigModal.t_events].
  simpl.
  destruct (Z.eqb mainAgentId 0); simpl; [repeat split; discriminate |].
  destruct (searchToolConfig _ _ _) as [[result | e] h1]; simpl.
  - destruct (ToolConfigModal.search_success result); simpl;
      [destruct (ToolConfigModal.data_params result); simpl |];
      repeat split; discriminate.
  - repeat split; discriminate.
Qed.

Lemma loadEffect_search_calls_witness :
  let search := fun (_ : ToolConfigModal.Num) (_ : Z) (h : ToolConfigModal.Modal) =>
                  (@Throw ToolConfigModal.SearchResult Scenario.network_error, h) in
  let h := ToolConfigModal.mkModal
             (ToolConfigModal.initParams ToolConfigModal.search_tool) false in
  ToolConfigModal.loadEffect (fun _ => Some 7%Z) search false
    (Some ToolConfigModal.search_tool) 3%Z h
  = (Ret tt, ToolConfigModal.mkModal [] false, []).
Proof.
  intros search h.
  exact (proj2 (proj2 (loadEffect_search_calls (fun _ => Some 7%Z) search false
                         (Some ToolConfigModal.search_tool) 3%Z h)) eq_refl).
Defined.
